(** * purser: the Ledger wallet opener and the provider generators

    A shallow embedding of [src/ledger/index.js] (the [open] static method of
    the Ledger wallet) and of the providers file ([etherscan], [infura],
    [metamask], [localhost]), together with the properties the specification
    states about them.

    JavaScript values are a small inductive type, objects are finite maps
    from property names to values, and statements run in a state monad whose
    results are ECMAScript completion records (normal, return, throw).  The
    functions the two files import are fields of an [Imports] record, so every
    theorem holds for whatever those modules do. *)

From stdpp Require Import base gmap strings list pretty.

Set Warnings "-register-all".

(* ===================================================================== *)
(** ** JavaScript values, errors and completions *)
(* ===================================================================== *)

Module Js.

Inductive JsVal :=
| JUndefined
| JNull
| JBool (b : bool)
| JNum (n : Z)
| JStr (s : string)
| JArr (xs : list JsVal)
| JObj (fields : gmap string JsVal).

(** The object literal [{}]. *)
Definition empty_object : JsVal := JObj ∅.

(** [ToBoolean]: what [if (v)] and [!v] test. *)
Definition truthy (v : JsVal) : bool :=
  match v with
  | JUndefined | JNull => false
  | JBool b => b
  | JNum n => negb (n =? 0)%Z
  | JStr s => negb (String.eqb s "")
  | JArr _ | JObj _ => true
  end.

(** [o.k] on an object: a missing property reads as [undefined]. *)
Definition get (o : gmap string JsVal) (k : string) : JsVal :=
  default JUndefined (o !! k).

(** [v.k] on any value that is not [null] or [undefined]: primitives have
    no own properties of interest here. *)
Definition member (v : JsVal) (k : string) : JsVal :=
  match v with
  | JObj o => get o k
  | _ => JUndefined
  end.

(** A default in a parameter list or in a destructuring pattern,
    [x = d]: the default is taken exactly when the value is [undefined]. *)
Definition or_default (v d : JsVal) : JsVal :=
  match v with
  | JUndefined => d
  | _ => v
  end.

(** [v === n] for a number [n]. *)
Definition strict_eq_num (v : JsVal) (n : Z) : bool :=
  match v with
  | JNum m => (m =? n)%Z
  | _ => false
  end.

(** [ToString], as a template literal applies it.  An array joins its
    elements with commas, null and undefined elements giving nothing. *)
Fixpoint to_string (v : JsVal) : string :=
  match v with
  | JUndefined => "undefined"
  | JNull => "null"
  | JBool true => "true"
  | JBool false => "false"
  | JNum n => pretty n
  | JStr s => s
  | JArr xs =>
      (fix join (l : list JsVal) : string :=
         match l with
         | [] => ""
         | x :: rest =>
             let item := match x with
                         | JUndefined | JNull => ""
                         | _ => to_string x
                         end in
             match rest with
             | [] => item
             | _ => item +:+ "," +:+ join rest
             end
         end) xs
  | JObj _ => "[object Object]"
  end.

(** The i-th actual argument of a call; absent arguments are [undefined]. *)
Definition arg (i : nat) (args : list JsVal) : JsVal :=
  default JUndefined (args !! i).

(** [Error] instances. *)
Record JsError := mkError { name : string; message : string }.

(** The [TypeError] the language raises; the text of its message is the
    engine's. *)
Definition TypeError (msg : string) : JsError :=
  {| name := "TypeError"; message := msg |}.

(** What a [throw] or a rejected promise carries: an [Error] instance, or
    any other value. *)
Inductive Thrown :=
| Exception (e : JsError)
| Value (v : JsVal).

Coercion Exception : JsError >-> Thrown.

(** What a call into an imported module does: it returns or it throws.
    An awaited promise is the same thing: fulfilled or rejected. *)
Inductive Result (A : Type) :=
| Ok (a : A)
| Err (e : Thrown).
Arguments Ok {A} a.
Arguments Err {A} e.

(** Destructuring [const { a, b } = v]: null and undefined have no
    properties and make it throw; any other value can be read. *)
Definition destructure (v : JsVal) : Result unit :=
  match v with
  | JUndefined | JNull =>
      Err (TypeError "Cannot destructure a value that is null or undefined")
  | _ => Ok tt
  end.

(** [caught.message] on a caught value: the message of an [Error], the
    property of any other value, and a [TypeError] for null and
    undefined. *)
Definition thrown_message (caught : Thrown) : Result JsVal :=
  match caught with
  | Exception e => Ok (JStr (message e))
  | Value JUndefined | Value JNull =>
      Err (TypeError "Cannot read properties of null or undefined")
  | Value v => Ok (member v "message")
  end.

(** Completion records of statements inside a function body whose return
    type is [R]. *)
Inductive Completion (R A : Type) :=
| Normal (a : A)
| Return (r : R)
| Throw (e : Thrown).
Arguments Normal {R A} a.
Arguments Return {R A} r.
Arguments Throw {R A} e.

(** Statements: state [S] in, completion and state out.  The state is kept
    on every completion: what was assigned or logged before a [throw]
    stays. *)
Definition M (S R A : Type) : Type := S -> Completion R A * S.

Section Monad.
Context {S R : Type}.

Definition ret {A} (a : A) : M S R A := fun s => (Normal a, s).

Definition bind {A B} (m : M S R A) (k : A -> M S R B) : M S R B :=
  fun s =>
    match m s with
    | (Normal a, s') => k a s'
    | (Return r, s') => (Return r, s')
    | (Throw e, s') => (Throw e, s')
    end.

(** [return r;] *)
Definition return_ {A} (r : R) : M S R A := fun s => (Return r, s).

(** [throw e;] *)
Definition throw {A} (e : Thrown) : M S R A := fun s => (Throw e, s).

(** The value of a call into an imported module. *)
Definition lift {A} (r : Result A) : M S R A :=
  match r with
  | Ok a => ret a
  | Err e => throw e
  end.

Definition gets {A} (f : S -> A) : M S R A := fun s => (Normal (f s), s).
Definition modify (f : S -> S) : M S R unit := fun s => (Normal tt, f s).

(** [try { body } catch (err) { handler }] *)
Definition try_catch {A} (body : M S R A) (handler : Thrown -> M S R A)
  : M S R A :=
  fun s =>
    match body s with
    | (Throw e, s') => handler e s'
    | other => other
    end.

(** [if (c) { body }] with no else branch. *)
Definition when (c : bool) (body : M S R unit) : M S R unit :=
  if c then body else ret tt.

(** Leaving a synchronous function: falling off the end yields
    [dflt] ([undefined]). *)
Definition call (dflt : R) (body : M S R unit) (s : S) : Result R * S :=
  match body s with
  | (Normal _, s') => (Ok dflt, s')
  | (Return r, s') => (Ok r, s')
  | (Throw e, s') => (Err e, s')
  end.
End Monad.

(** The settled state of the promise an [async] function returns. *)
Inductive Promise (R : Type) :=
| Resolved (r : R)
| Rejected (e : Thrown).
Arguments Resolved {R} r.
Arguments Rejected {R} e.

(** Leaving an [async] function: a return resolves the promise, a throw
    that reaches the function boundary rejects it. *)
Definition async_call {S R} (dflt : R) (body : M S R unit) (s : S)
  : Promise R * S :=
  match body s with
  | (Normal _, s') => (Resolved dflt, s')
  | (Return r, s') => (Resolved r, s')
  | (Throw e, s') => (Rejected e, s')
  end.

Module Notations.
Notation "x <- m ;; k" := (bind m (fun x => k))
  (at level 100, m at next level, right associativity).
Notation "m ;;; k" := (bind m (fun _ => k))
  (at level 100, right associativity).
End Notations.

End Js.

Import Js Js.Notations.

(* ===================================================================== *)
(** ** The Ledger wallet: [ledgerWallet.open] *)
(* ===================================================================== *)

Module Ledger.

(** What [ledger.getAddress] resolves with. *)
Record AddressResponse := mkResponse {
  publicKey : string;
  chainCode : string;
}.

(** [LedgerInstanceType]: the connected device. *)
Record LedgerInstanceType := mkInstance {
  getAddress : string -> bool -> bool -> Result AddressResponse;
}.

(** The object literal handed to [new LedgerWallet]. *)
Record WalletArguments := mkArguments {
  arg_publicKey : string;
  arg_chainCode : string;
  arg_rootDerivationPath : string;
  arg_addressCount : JsVal;
  arg_chainId : JsVal;
}.

(** Modelled from the spec: one derived address record of a wallet (the
    class of [./class] is not among the sources). *)
Record AddressRecord := mkAddress {
  addr_index : nat;
  addr_path : string;
  addr_value : string;
}.

(** Modelled from the spec: the wallet object of [./class], with the fields
    the data model of the specification gives it. *)
Record LedgerWallet := mkWallet {
  wallet_publicKey : string;
  wallet_chainCode : string;
  wallet_rootDerivationPath : string;
  wallet_addresses : list AddressRecord;
  wallet_chainId : JsVal;
}.

(** What the promise of [open] resolves with ([LedgerWallet | void]): the
    wallet instance, or whatever the connection-error handler returned. *)
Inductive OpenResult :=
| Wallet (walletInstance : LedgerWallet)
| Handled (v : JsVal).

(** The calls [open] makes out of its own file, in the order made. *)
Inductive Event :=
| UserInputValidator (firstArgument : JsVal)
| DerivationPathSerializer (coinType : Z)
| LedgerConnection
| GetAddress (path : string) (display prompt : bool)
| NewLedgerWallet (args : WalletArguments)
| HandleLedgerConnectionError (caughtError : Thrown) (specificMessage : string).

(** Everything [index.js] imports: [./class], [./helpers],
    [../core/helpers], [./messages] and [../core/defaults].  Every function
    among them may return or throw. *)
Record Imports := mkImports {
  (* ../core/helpers *)
  userInputValidator : JsVal -> Result unit;
  derivationPathSerializer : Z -> Result string;
  (* ./helpers *)
  ledgerConnection : Result LedgerInstanceType;
  handleLedgerConnectionError : Thrown -> string -> Result JsVal;
  (* ./class *)
  LedgerWallet_new : WalletArguments -> Result LedgerWallet;
  (* ./messages *)
  messages_userExportGenericError : string;
  (* ../core/defaults *)
  NETWORK_IDS_HOMESTEAD : Z;
  PATH_COIN_MAINNET : Z;
  PATH_COIN_TESTNET : Z;
}.

Section Open.
Variable I : Imports.

Local Abbreviation Stmt := (M (list Event) OpenResult).

(** A call out of the file: it is recorded, then it returns or throws. *)
Definition external {A} (ev : Event) (r : Result A) : Stmt A :=
  modify (fun tr => tr ++ [ev]) ;;; lift r.

(** The parameter default [argumentObject = {}]: the argument is any value
    ([undefined] when [open] is called without one), and only [undefined]
    is replaced. *)
Definition open_argumentObject (argumentObject : JsVal) : JsVal :=
  or_default argumentObject empty_object.

(** [const { addressCount, chainId = NETWORK_IDS.HOMESTEAD } = argumentObject] *)
Definition open_addressCount (argumentObject : JsVal) : JsVal :=
  member argumentObject "addressCount".

Definition open_chainId (argumentObject : JsVal) : JsVal :=
  or_default (member argumentObject "chainId") (JNum (NETWORK_IDS_HOMESTEAD I)).

(** [chainId === NETWORK_IDS.HOMESTEAD ? PATH.COIN_MAINNET : PATH.COIN_TESTNET] *)
Definition open_coinType (chainId : JsVal) : Z :=
  if strict_eq_num chainId (NETWORK_IDS_HOMESTEAD I)
  then PATH_COIN_MAINNET I
  else PATH_COIN_TESTNET I.

(** [derivationPathSerializer({ coinType })]: the root path, when the
    serializer returns one. *)
Definition open_rootDerivationPath (argumentObject : JsVal) : Result string :=
  derivationPathSerializer I (open_coinType (open_chainId argumentObject)).

(** The template literal of the catch block, given the text that
    [caughtError.message] converts to. *)
Definition open_template (rootDerivationPath text : string) : string :=
  messages_userExportGenericError I +:+ ": " +:+ rootDerivationPath
    +:+ " " +:+ text.

(** The template literal for a caught [Error]. *)
Definition open_specificMessage (rootDerivationPath : string)
    (caughtError : JsError) : string :=
  open_template rootDerivationPath (message caughtError).

(** The template literal for whatever was caught: reading [.message] throws
    when the caught value is null or undefined. *)
Definition open_catchMessage (rootDerivationPath : string)
    (caughtError : Thrown) : Result string :=
  match thrown_message caughtError with
  | Ok text => Ok (open_template rootDerivationPath (to_string text))
  | Err e => Err e
  end.

(** The object literal handed to [new LedgerWallet]. *)
Definition open_walletArguments (argumentObject : JsVal)
    (rootDerivationPath : string) (response : AddressResponse)
  : WalletArguments :=
  {| arg_publicKey := publicKey response;
     arg_chainCode := chainCode response;
     arg_rootDerivationPath := rootDerivationPath;
     arg_addressCount := open_addressCount argumentObject;
     arg_chainId := open_chainId argumentObject |}.

(** The body of [open]. *)
Definition open_body (argumentObject : JsVal) : Stmt unit :=
  let argumentObject := open_argumentObject argumentObject in
  external (UserInputValidator argumentObject)
           (userInputValidator I argumentObject) ;;;
  lift (destructure argumentObject) ;;;
  let coinType := open_coinType (open_chainId argumentObject) in
  rootDerivationPath <- external (DerivationPathSerializer coinType)
                                 (derivationPathSerializer I coinType) ;;
  try_catch
    (ledger <- external LedgerConnection (ledgerConnection I) ;;
     response <- external (GetAddress rootDerivationPath false true)
                          (getAddress ledger rootDerivationPath false true) ;;
     let args := open_walletArguments argumentObject rootDerivationPath response in
     walletInstance <- external (NewLedgerWallet args) (LedgerWallet_new I args) ;;
     return_ (Wallet walletInstance))
    (fun caughtError =>
       specificMessage <- lift (open_catchMessage rootDerivationPath caughtError) ;;
       handled <- external (HandleLedgerConnectionError caughtError specificMessage)
                           (handleLedgerConnectionError I caughtError specificMessage) ;;
       return_ (Handled handled)).

(** [open(argumentObject)]: the promise it returns, once settled, and the
    calls made on the way.  [JUndefined] is a call without an argument. *)
Definition open (argumentObject : JsVal) : Promise OpenResult * list Event :=
  async_call (Handled JUndefined) (open_body argumentObject) [].

(** How the outcome of the handler settles the promise: [return handler(..)]. *)
Definition settle (r : Result JsVal) : Promise OpenResult :=
  match r with
  | Ok v => Resolved (Handled v)
  | Err e => Rejected e
  end.

(** Something thrown inside the [try] block of [open], entered with the
    root path [root]: by the connection, by [getAddress] or by the wallet
    constructor; with the calls made inside the block up to the throw. *)
Inductive thrown_in_try (argumentObject : JsVal) (root : string)
  : Thrown -> list Event -> Prop :=
| thrown_by_connection e :
    ledgerConnection I = Err e ->
    thrown_in_try argumentObject root e [LedgerConnection]
| thrown_by_getAddress ledger e :
    ledgerConnection I = Ok ledger ->
    getAddress ledger root false true = Err e ->
    thrown_in_try argumentObject root e
      [LedgerConnection; GetAddress root false true]
| thrown_by_constructor ledger response e :
    let args := open_walletArguments argumentObject root response in
    ledgerConnection I = Ok ledger ->
    getAddress ledger root false true = Ok response ->
    LedgerWallet_new I args = Err e ->
    thrown_in_try argumentObject root e
      [LedgerConnection; GetAddress root false true; NewLedgerWallet args].

End Open.

(** Reading a trace. *)
Definition is_connection (ev : Event) : bool :=
  match ev with LedgerConnection => true | _ => false end.

Definition is_getAddress (ev : Event) : bool :=
  match ev with GetAddress _ _ _ => true | _ => false end.

(** No device I/O at all in a trace. *)
Definition no_device_io (tr : list Event) : bool :=
  forallb (fun ev => negb (is_connection ev || is_getAddress ev)) tr.

(** The serializer is asked for the path of [coinType]. *)
Definition serializes (coinType : Z) (ev : Event) : Prop :=
  match ev with
  | DerivationPathSerializer c => c = coinType
  | _ => True
  end.

(** The device calls of a trace are made for the path [rootDerivationPath]
    holds, and the wallet is built on it. *)
Definition uses_root (rootDerivationPath : Result string) (ev : Event) : Prop :=
  match ev with
  | GetAddress path _ _ => rootDerivationPath = Ok path
  | NewLedgerWallet args => rootDerivationPath = Ok (arg_rootDerivationPath args)
  | _ => True
  end.

(** The wallet of a trace is built for [chainId]. *)
Definition uses_chainId (chainId : JsVal) (ev : Event) : Prop :=
  match ev with
  | NewLedgerWallet args => arg_chainId args = chainId
  | _ => True
  end.

(** [needle] occurs in [hay]. *)
Definition occurs_in (needle hay : string) : Prop :=
  exists before after, hay = before +:+ needle +:+ after.

End Ledger.

(* ===================================================================== *)
(** ** The provider generators: [etherscan], [infura], [metamask],
       [localhost] *)
(* ===================================================================== *)

Module Providers.

(** The constructors of the [providers] namespace of [ethers]. *)
Inductive ProviderClass :=
| EtherscanProvider
| InfuraProvider
| Web3Provider
| JsonRpcProvider.

(** What a generator does besides returning: the constructions it attempts
    and the calls to [warn] and [error] of [./utils], which only log. *)
Inductive Event :=
| New (class : ProviderClass) (args : list JsVal)
| Warn (msg : string)
| Error (msg : string) (params : list JsVal) (err : Thrown).

(** The imports of the file and the [global] object it reads. *)
Record Imports := mkImports {
  (* ethers *)
  providers : ProviderClass -> list JsVal -> Result JsVal;
  (* ./messages *)
  warnings_providers_etherscan_apiKey : string;
  warnings_providers_infura_apiKey : string;
  warnings_providers_metamask_notAvailable : string;
  errors_providers_etherscan_connect : string;
  errors_providers_infura_connect : string;
  errors_providers_metamask_connect : string;
  errors_providers_localhost_connect : string;
  (* ./defaults *)
  DEFAULT_NETWORK : string;
  PROTOCOL : string;
  HOST : string;
  PORT : string;
  (* the host environment *)
  global : gmap string JsVal;
}.

(** The state of one call: the local [let provider] and the log. *)
Record Frame := mkFrame {
  provider : JsVal;
  log : list Event;
}.

Definition set_provider (p : JsVal) (f : Frame) : Frame :=
  {| provider := p; log := log f |}.

Definition record (ev : Event) (f : Frame) : Frame :=
  {| provider := provider f; log := log f ++ [ev] |}.

Section Generators.
Variable I : Imports.

Local Abbreviation Stmt := (M Frame JsVal).

(** [provider = p;] *)
Definition assign (p : JsVal) : Stmt unit := modify (set_provider p).

(** Modelled from the spec: [warn] of [./utils], which emits a warning and
    does nothing else.  [warn(msg);] *)
Definition warn (msg : string) : Stmt unit := modify (record (Warn msg)).

(** Modelled from the spec: [error] of [./utils], which logs the provider's
    message, the parameters and the underlying error, and does nothing else.
    [error(msg, ...params, err);] *)
Definition error (msg : string) (params : list JsVal) (err : Thrown) : Stmt unit :=
  modify (record (Error msg params err)).

(** [new providers.C(...args)] *)
Definition new (class : ProviderClass) (args : list JsVal) : Stmt JsVal :=
  modify (record (New class args)) ;;; lift (providers I class args).

(** [return provider;] *)
Definition return_provider {A} : Stmt A :=
  p <- gets provider ;; return_ p.

Definition etherscan_body (network apiKey : JsVal) : Stmt unit :=
  let network := or_default network (JStr (DEFAULT_NETWORK I)) in
  assign empty_object ;;;
  try_catch
    (when (truthy apiKey)
       (p <- new EtherscanProvider [network; apiKey] ;; assign p) ;;;
     warn (warnings_providers_etherscan_apiKey I) ;;;
     p <- new EtherscanProvider [network] ;;
     assign p)
    (fun err => error (errors_providers_etherscan_connect I) [network; apiKey] err) ;;;
  return_provider.

Definition infura_body (network apiKey : JsVal) : Stmt unit :=
  let network := or_default network (JStr (DEFAULT_NETWORK I)) in
  assign empty_object ;;;
  try_catch
    (when (truthy apiKey)
       (p <- new InfuraProvider [network; apiKey] ;; assign p) ;;;
     warn (warnings_providers_infura_apiKey I) ;;;
     p <- new InfuraProvider [network] ;;
     assign p)
    (fun err => error (errors_providers_infura_connect I) [network; apiKey] err) ;;;
  return_provider.

(** [global.web3] and [global.web3.currentProvider] *)
Definition global_web3 : JsVal := get (global I) "web3".
Definition global_web3_currentProvider : JsVal := member global_web3 "currentProvider".

Definition metamask_body (network : JsVal) : Stmt unit :=
  let network := or_default network (JStr (DEFAULT_NETWORK I)) in
  assign empty_object ;;;
  try_catch
    (when (negb (truthy global_web3) || negb (truthy global_web3_currentProvider))
       (warn (warnings_providers_metamask_notAvailable I) ;;;
        return_provider) ;;;
     p <- new Web3Provider [global_web3_currentProvider; network] ;;
     assign p)
    (fun err => error (errors_providers_metamask_connect I) [network] err) ;;;
  return_provider.

(** The default of [url]: the template [PROTOCOL://HOST:PORT]. *)
Definition localhost_default_url : string :=
  PROTOCOL I +:+ "://" +:+ HOST I +:+ ":" +:+ PORT I.

Definition localhost_body (url network : JsVal) : Stmt unit :=
  let url := or_default url (JStr localhost_default_url) in
  let network := or_default network (JStr (DEFAULT_NETWORK I)) in
  assign empty_object ;;;
  try_catch
    (p <- new JsonRpcProvider [url; network] ;;
     assign p)
    (fun err => error (errors_providers_localhost_connect I) [url; network] err) ;;;
  return_provider.

(** A call of a generator: what it returns or throws, and its log. *)
Definition run (body : Stmt unit) : Result JsVal * list Event :=
  let (r, f) := call JUndefined body {| provider := JUndefined; log := [] |} in
  (r, log f).

Definition etherscan (network apiKey : JsVal) := run (etherscan_body network apiKey).
Definition infura (network apiKey : JsVal) := run (infura_body network apiKey).
Definition metamask (network : JsVal) := run (metamask_body network).
Definition localhost (url network : JsVal) := run (localhost_body url network).

End Generators.

(** The default export [colonyWallet = { etherscan, infura, localhost,
    metamask }]: a method name and the actual arguments of the call. *)
Inductive Method := Etherscan | Infura | Localhost | Metamask.

Definition colonyWallet (I : Imports) (m : Method) (args : list JsVal)
  : Result JsVal * list Event :=
  match m with
  | Etherscan => etherscan I (arg 0 args) (arg 1 args)
  | Infura => infura I (arg 0 args) (arg 1 args)
  | Localhost => localhost I (arg 0 args) (arg 1 args)
  | Metamask => metamask I (arg 0 args)
  end.

(** The constructions attempted, in order. *)
Definition constructions (tr : list Event) : list (ProviderClass * list JsVal) :=
  omap (fun ev => match ev with New c a => Some (c, a) | _ => None end) tr.

(** The warnings emitted, in order. *)
Definition warnings (tr : list Event) : list string :=
  omap (fun ev => match ev with Warn m => Some m | _ => None end) tr.

End Providers.

(* ===================================================================== *)
(** ** The imported modules, as the specification describes them *)
(* ===================================================================== *)

Module Modelled.
Import Ledger.

(** Modelled from the spec: [NETWORK_IDS.HOMESTEAD] of [../core/defaults],
    which is not part of the sources read here.  The mainnet id is [1]
    (the doc comment of [open]: "defaults to mainnet (1)"). *)
Definition HOMESTEAD : Z := 1.

(** Modelled from the spec: [PATH.COIN_MAINNET] of [../core/defaults]; the
    standard Ether coin type, [60] in the specification's example path. *)
Definition COIN_MAINNET : Z := 60.

(** Modelled from the spec: [PATH.COIN_TESTNET] of [../core/defaults]; [1]
    according to the comment above its use in [open]. *)
Definition COIN_TESTNET : Z := 1.

(** Modelled from the spec: [derivationPathSerializer] of [../core/helpers];
    called with a coin type only, it yields the root path
    [m/44'/<coin>'/0']. *)
Definition derivationPathSerializer (coinType : Z) : string :=
  "m/44'/" +:+ pretty coinType +:+ "'/0'".

(** Modelled from the spec: the [ValidationError] the validator fails with;
    it names the offending field. *)
Definition ValidationError (field : string) : JsError :=
  {| name := "ValidationError"; message := field |}.

(** Modelled from the spec: the expected type of [addressCount], a
    non-negative integer. *)
Definition valid_addressCount (v : JsVal) : bool :=
  match v with
  | JNum n => (0 <=? n)%Z
  | _ => false
  end.

(** Modelled from the spec: the expected type of [chainId], a positive
    integer. *)
Definition valid_chainId (v : JsVal) : bool :=
  match v with
  | JNum n => (0 <? n)%Z
  | _ => false
  end.

(** Modelled from the spec: a recognized field is checked only when it is
    present, that is, when reading it does not give [undefined]. *)
Definition check_field (o : gmap string JsVal) (field : string)
    (valid : JsVal -> bool) : Result unit :=
  match get o field with
  | JUndefined => Ok tt
  | v => if valid v then Ok tt else Err (ValidationError field)
  end.

(** Modelled from the spec: [userInputValidator] of [../core/helpers].  It
    confirms that its argument is an object (not null, an array or a
    primitive) and that the recognized fields that are present have the
    expected type; otherwise it fails with a [ValidationError] naming the
    offending field. *)
Definition userInputValidator (firstArgument : JsVal) : Result unit :=
  match firstArgument with
  | JObj o =>
      match check_field o "addressCount" valid_addressCount with
      | Ok _ => check_field o "chainId" valid_chainId
      | Err e => Err e
      end
  | _ => Err (ValidationError "firstArgument")
  end.

(** Modelled from the spec: [handleLedgerConnectionError] of [./helpers],
    under the policy the specification calls current: the error is reported
    and the handler gives back [undefined]. *)
Definition handleLedgerConnectionError (caughtError : Thrown)
    (specificMessage : string) : Result JsVal :=
  Ok JUndefined.

Section Class.
(** The elliptic-curve child derivation, a primitive of an external
    library: from the public key, the chain code and a full path to the
    address. *)
Variable derive : string -> string -> string -> string.

(** Modelled from the spec: the full path of child [i] of the class of
    [./class], [rootDerivationPath/0/i]. *)
Definition childPath (rootDerivationPath : string) (i : nat) : string :=
  rootDerivationPath +:+ "/0/" +:+ pretty i.

(** Modelled from the spec: the bound of the loop
    [for i in 0..addressCount-1] of the constructor of [./class]; a value
    that is not a positive number gives no iteration. *)
Definition iterations (addressCount : JsVal) : nat :=
  match addressCount with
  | JNum n => Z.to_nat n
  | _ => 0
  end.

(** Modelled from the spec: one step of that loop, the address record of
    child [i]. *)
Definition deriveAddress (publicKey chainCode rootDerivationPath : string)
    (i : nat) : AddressRecord :=
  let path := childPath rootDerivationPath i in
  {| addr_index := i; addr_path := path;
     addr_value := derive publicKey chainCode path |}.

(** Modelled from the spec: the constructor of the [LedgerWallet] class of
    [./class].  It derives [addressCount] child addresses eagerly, index by
    index, and keeps the key material, the root path and the chain id. *)
Definition LedgerWallet_constructor (args : WalletArguments) : LedgerWallet :=
  {| wallet_publicKey := arg_publicKey args;
     wallet_chainCode := arg_chainCode args;
     wallet_rootDerivationPath := arg_rootDerivationPath args;
     wallet_addresses :=
       map (deriveAddress (arg_publicKey args) (arg_chainCode args)
                          (arg_rootDerivationPath args))
           (seq 0 (iterations (arg_addressCount args)));
     wallet_chainId := arg_chainId args |}.
End Class.

(** A stand-in for the derivation primitive, for running examples. *)
Definition sample_derive (publicKey chainCode path : string) : string :=
  "0x" +:+ publicKey +:+ chainCode +:+ "@" +:+ path.

(** What a device answered, and a request for three addresses on mainnet. *)
Definition sample_arguments : WalletArguments :=
  {| arg_publicKey := "04ab"; arg_chainCode := "cc01";
     arg_rootDerivationPath := "m/44'/60'/0'";
     arg_addressCount := JNum 3; arg_chainId := JNum 1 |}.

(** A device that is plugged in, unlocked and answers. *)
Definition sample_ledger : LedgerInstanceType :=
  {| getAddress := fun path display prompt =>
       Ok {| publicKey := "04ab"; chainCode := "cc01" |} |}.

(** The imports as modelled above, given the state of the device. *)
Definition imports (connection : Result LedgerInstanceType) : Imports :=
  {| Ledger.userInputValidator := userInputValidator;
     Ledger.derivationPathSerializer := fun coinType => Ok (derivationPathSerializer coinType);
     ledgerConnection := connection;
     Ledger.handleLedgerConnectionError := handleLedgerConnectionError;
     LedgerWallet_new := fun args => Ok (LedgerWallet_constructor sample_derive args);
     messages_userExportGenericError := "Could not export the public key";
     NETWORK_IDS_HOMESTEAD := HOMESTEAD;
     PATH_COIN_MAINNET := COIN_MAINNET;
     PATH_COIN_TESTNET := COIN_TESTNET |}.

Definition device_ready : Imports := imports (Ok sample_ledger).

Definition device_absent : Imports :=
  imports (Err {| name := "TransportError"; message := "No device found" |}).

(** A device whose user rejects the prompt of [getAddress]. *)
Definition device_rejecting : Imports :=
  imports (Ok {| getAddress := fun path display prompt =>
                   Err {| name := "TransportStatusError";
                          message := "Denied by the user" |} |}).

(** A stand-in for [ethers]: the constructors know two networks, and an
    instance remembers what it was built from. *)
Definition sample_providers (class : Providers.ProviderClass) (args : list JsVal)
  : Result JsVal :=
  match arg 0 args, class with
  | JStr "homestead", Providers.EtherscanProvider
  | JStr "ropsten", Providers.EtherscanProvider
  | JStr "homestead", Providers.InfuraProvider
  | JStr "ropsten", Providers.InfuraProvider =>
      Ok (JObj {[ "network" := arg 0 args; "apiKey" := arg 1 args ]})
  | JStr _, Providers.JsonRpcProvider =>
      Ok (JObj {[ "url" := arg 0 args; "network" := arg 1 args ]})
  | JObj _, Providers.Web3Provider =>
      match arg 1 args with
      | JStr "homestead" | JStr "ropsten" =>
          Ok (JObj {[ "web3" := arg 0 args; "network" := arg 1 args ]})
      | _ => Err {| name := "Error"; message := "invalid network" |}
      end
  | _, _ => Err {| name := "Error"; message := "unsupported network" |}
  end.

(** The providers file in a host with the given [global] object. *)
Definition provider_imports (global : gmap string JsVal) : Providers.Imports :=
  {| Providers.providers := sample_providers;
     Providers.warnings_providers_etherscan_apiKey := "etherscan: no api key";
     Providers.warnings_providers_infura_apiKey := "infura: no api key";
     Providers.warnings_providers_metamask_notAvailable := "metamask: not available";
     Providers.errors_providers_etherscan_connect := "etherscan: connection failed";
     Providers.errors_providers_infura_connect := "infura: connection failed";
     Providers.errors_providers_metamask_connect := "metamask: connection failed";
     Providers.errors_providers_localhost_connect := "localhost: connection failed";
     Providers.DEFAULT_NETWORK := "homestead";
     Providers.PROTOCOL := "http";
     Providers.HOST := "localhost";
     Providers.PORT := "8545";
     Providers.global := global |}.

(** Node: nothing is injected. *)
Definition node_host : Providers.Imports := provider_imports ∅.

(** A browser with an injected wallet. *)
Definition browser_host : Providers.Imports :=
  provider_imports {[ "web3" := JObj {[ "currentProvider" := JObj ∅ ]} ]}.

End Modelled.

(* ===================================================================== *)
(** ** Further readings of traces and logs, and more hosts to run on *)
(* ===================================================================== *)

Module Observed.

(** Kinds of calls in a trace of [open]. *)
Definition is_validator (ev : Ledger.Event) : bool :=
  match ev with Ledger.UserInputValidator _ => true | _ => false end.

Definition is_serializer (ev : Ledger.Event) : bool :=
  match ev with Ledger.DerivationPathSerializer _ => true | _ => false end.

Definition is_construction (ev : Ledger.Event) : bool :=
  match ev with Ledger.NewLedgerWallet _ => true | _ => false end.

Definition is_handler (ev : Ledger.Event) : bool :=
  match ev with Ledger.HandleLedgerConnectionError _ _ => true | _ => false end.

(** How many calls of a kind a trace has. *)
Definition calls (kind : Ledger.Event -> bool) (tr : list Ledger.Event) : nat :=
  length (List.filter kind tr).

(** The errors a generator logged through [error], in order. *)
Definition errors (tr : list Providers.Event) : list Thrown :=
  omap (fun ev => match ev with Providers.Error _ _ e => Some e | _ => None end) tr.

(** The class each generator instantiates. *)
Definition class_of (m : Providers.Method) : Providers.ProviderClass :=
  match m with
  | Providers.Etherscan => Providers.EtherscanProvider
  | Providers.Infura => Providers.InfuraProvider
  | Providers.Localhost => Providers.JsonRpcProvider
  | Providers.Metamask => Providers.Web3Provider
  end.

(** Where the network sits among the arguments of a construction: first
    for [EtherscanProvider] and [InfuraProvider], second for [Web3Provider]
    and [JsonRpcProvider]. *)
Definition network_of (construction : Providers.ProviderClass * list JsVal) : JsVal :=
  match fst construction with
  | Providers.EtherscanProvider | Providers.InfuraProvider =>
      arg 0 (snd construction)
  | Providers.Web3Provider | Providers.JsonRpcProvider =>
      arg 1 (snd construction)
  end.

(** A device that answers, behind a validator that lets every object
    through. *)
Definition unchecked : Ledger.Imports :=
  {| Ledger.userInputValidator := fun _ => Ok tt;
     Ledger.derivationPathSerializer :=
       fun coinType => Ok (Modelled.derivationPathSerializer coinType);
     Ledger.ledgerConnection := Ok Modelled.sample_ledger;
     Ledger.handleLedgerConnectionError := Modelled.handleLedgerConnectionError;
     Ledger.LedgerWallet_new :=
       fun args => Ok (Modelled.LedgerWallet_constructor Modelled.sample_derive args);
     Ledger.messages_userExportGenericError := "Could not export the public key";
     Ledger.NETWORK_IDS_HOMESTEAD := Modelled.HOMESTEAD;
     Ledger.PATH_COIN_MAINNET := Modelled.COIN_MAINNET;
     Ledger.PATH_COIN_TESTNET := Modelled.COIN_TESTNET |}.

(** A device that answers, and a wallet class that refuses the key. *)
Definition refusing_class : Ledger.Imports :=
  {| Ledger.userInputValidator := Modelled.userInputValidator;
     Ledger.derivationPathSerializer :=
       fun coinType => Ok (Modelled.derivationPathSerializer coinType);
     Ledger.ledgerConnection := Ok Modelled.sample_ledger;
     Ledger.handleLedgerConnectionError := Modelled.handleLedgerConnectionError;
     Ledger.LedgerWallet_new :=
       fun args => Err {| name := "Error"; message := "Invalid public key" |};
     Ledger.messages_userExportGenericError := "Could not export the public key";
     Ledger.NETWORK_IDS_HOMESTEAD := Modelled.HOMESTEAD;
     Ledger.PATH_COIN_MAINNET := Modelled.COIN_MAINNET;
     Ledger.PATH_COIN_TESTNET := Modelled.COIN_TESTNET |}.

(** A device that is not plugged in, and a handler that throws a
    consolidated error instead of returning. *)
Definition rethrowing : Ledger.Imports :=
  {| Ledger.userInputValidator := Modelled.userInputValidator;
     Ledger.derivationPathSerializer :=
       fun coinType => Ok (Modelled.derivationPathSerializer coinType);
     Ledger.ledgerConnection :=
       Err {| name := "TransportError"; message := "No device found" |};
     Ledger.handleLedgerConnectionError :=
       fun caughtError specificMessage =>
         Err {| name := "Error"; message := specificMessage |};
     Ledger.LedgerWallet_new :=
       fun args => Ok (Modelled.LedgerWallet_constructor Modelled.sample_derive args);
     Ledger.messages_userExportGenericError := "Could not export the public key";
     Ledger.NETWORK_IDS_HOMESTEAD := Modelled.HOMESTEAD;
     Ledger.PATH_COIN_MAINNET := Modelled.COIN_MAINNET;
     Ledger.PATH_COIN_TESTNET := Modelled.COIN_TESTNET |}.

(** A device that is not plugged in, a connection that rejects with no
    value, behind a validator that lets everything through. *)
Definition rejecting_with_nothing : Ledger.Imports :=
  {| Ledger.userInputValidator := fun _ => Ok tt;
     Ledger.derivationPathSerializer :=
       fun coinType => Ok (Modelled.derivationPathSerializer coinType);
     Ledger.ledgerConnection := Err (Value JUndefined);
     Ledger.handleLedgerConnectionError := Modelled.handleLedgerConnectionError;
     Ledger.LedgerWallet_new :=
       fun args => Ok (Modelled.LedgerWallet_constructor Modelled.sample_derive args);
     Ledger.messages_userExportGenericError := "Could not export the public key";
     Ledger.NETWORK_IDS_HOMESTEAD := Modelled.HOMESTEAD;
     Ledger.PATH_COIN_MAINNET := Modelled.COIN_MAINNET;
     Ledger.PATH_COIN_TESTNET := Modelled.COIN_TESTNET |}.

(** A serializer that refuses every coin type. *)
Definition refusing_serializer : Ledger.Imports :=
  {| Ledger.userInputValidator := Modelled.userInputValidator;
     Ledger.derivationPathSerializer :=
       fun coinType => Err (Modelled.ValidationError "coinType");
     Ledger.ledgerConnection := Ok Modelled.sample_ledger;
     Ledger.handleLedgerConnectionError := Modelled.handleLedgerConnectionError;
     Ledger.LedgerWallet_new :=
       fun args => Ok (Modelled.LedgerWallet_constructor Modelled.sample_derive args);
     Ledger.messages_userExportGenericError := "Could not export the public key";
     Ledger.NETWORK_IDS_HOMESTEAD := Modelled.HOMESTEAD;
     Ledger.PATH_COIN_MAINNET := Modelled.COIN_MAINNET;
     Ledger.PATH_COIN_TESTNET := Modelled.COIN_TESTNET |}.

(** A stand-in for an [ethers] whose constructors insist on an api key. *)
Definition keyed_only_providers (class : Providers.ProviderClass)
    (args : list JsVal) : Result JsVal :=
  match arg 1 args with
  | JStr _ => Ok (JObj {[ "network" := arg 0 args; "apiKey" := arg 1 args ]})
  | _ => Err {| name := "Error"; message := "missing api key" |}
  end.

Definition keyed_only_host : Providers.Imports :=
  {| Providers.providers := keyed_only_providers;
     Providers.warnings_providers_etherscan_apiKey := "etherscan: no api key";
     Providers.warnings_providers_infura_apiKey := "infura: no api key";
     Providers.warnings_providers_metamask_notAvailable := "metamask: not available";
     Providers.errors_providers_etherscan_connect := "etherscan: connection failed";
     Providers.errors_providers_infura_connect := "infura: connection failed";
     Providers.errors_providers_metamask_connect := "metamask: connection failed";
     Providers.errors_providers_localhost_connect := "localhost: connection failed";
     Providers.DEFAULT_NETWORK := "homestead";
     Providers.PROTOCOL := "http";
     Providers.HOST := "localhost";
     Providers.PORT := "8545";
     Providers.global := ∅ |}.

End Observed.

(* ===================================================================== *)
(** ** Properties of [open] *)
(* ===================================================================== *)

Import Ledger.

(** Unfolds one run of [open] down to the results of the imported calls. *)
Ltac run_open :=
  unfold open, async_call, open_body, external, try_catch, bind, modify,
    lift, ret, throw, return_; simpl.

(** Unfolds one call of a provider generator down to the constructors. *)
Ltac run_generator :=
  unfold Providers.etherscan, Providers.infura, Providers.metamask,
    Providers.localhost, Providers.run, call, Providers.etherscan_body,
    Providers.infura_body, Providers.metamask_body, Providers.localhost_body,
    try_catch, when, Providers.return_provider, Providers.new,
    Providers.assign, Providers.warn, Providers.error, bind, gets, modify,
    lift, ret, throw, return_; simpl.

(** Settles one case of a generator with the lemma that describes it. *)
Ltac by_case lem :=
  erewrite lem by eassumption; simpl; intros; simplify_eq;
  solve [eauto | done | congruence].

(** Runs [open] by cases on what each imported call answers, on whether
    the argument can be destructured and on whether the message of what was
    caught can be read. *)
Ltac open_cases :=
  run_open;
  repeat match goal with
    | |- context [Ledger.userInputValidator ?I ?v] =>
        destruct (Ledger.userInputValidator I v) eqn:?; simpl
    | |- context [destructure ?v] =>
        destruct (destructure v) eqn:?; simpl
    | |- context [Ledger.derivationPathSerializer ?I ?c] =>
        destruct (Ledger.derivationPathSerializer I c) eqn:?; simpl
    | |- context [Ledger.ledgerConnection ?I] =>
        destruct (Ledger.ledgerConnection I) eqn:?; simpl
    | |- context [Ledger.getAddress ?l ?p ?d ?q] =>
        destruct (Ledger.getAddress l p d q) eqn:?; simpl
    | |- context [Ledger.LedgerWallet_new ?I ?a] =>
        destruct (Ledger.LedgerWallet_new I a) eqn:?; simpl
    | |- context [Ledger.open_catchMessage ?I ?r ?t] =>
        destruct (Ledger.open_catchMessage I r t) eqn:?; simpl
    | |- context [Ledger.handleLedgerConnectionError ?I ?e ?m] =>
        destruct (Ledger.handleLedgerConnectionError I e m) eqn:?; simpl
    end.

(** Finds which event of a concrete trace a membership speaks of. *)
Ltac in_trace H :=
  repeat first
    [ apply elem_of_nil in H; destruct H
    | apply elem_of_cons in H; destruct H as [H|H];
      [try discriminate H; simplify_eq|] ].

(** Runs a generator by cases on the tests it makes and on what each
    construction answers. *)
Ltac generator_cases :=
  run_generator;
  repeat match goal with
    | |- context [truthy ?v] => destruct (truthy v) eqn:?; simpl
    | |- context [Providers.providers ?I ?c ?a] =>
        destruct (Providers.providers I c a) eqn:?; simpl
    end.

(** String concatenation, as used by the template literals. *)
Lemma string_app_assoc (a b c : string) : (a +:+ b) +:+ c = a +:+ (b +:+ c).
Proof.
  induction a as [|x a IH]; [reflexivity|].
  change (String x ((a +:+ b) +:+ c) = String x (a +:+ (b +:+ c))).
  by rewrite IH.
Qed.

Lemma string_app_empty_r (a : string) : a +:+ "" = a.
Proof.
  induction a as [|x a IH]; [reflexivity|].
  change (String x (a +:+ "") = String x a). by rewrite IH.
Qed.

(** Destructuring throws on null and undefined only, and the argument of
    [open], once defaulted, is never undefined. *)
Lemma destructure_returns (v : JsVal) :
  v <> JNull -> v <> JUndefined -> destructure v = Ok tt.
Proof. by destruct v. Qed.

Lemma destructure_throws (v : JsVal) (t : Thrown) :
  destructure v = Err t ->
  (v = JNull \/ v = JUndefined) /\ exists msg, t = Exception (TypeError msg).
Proof.
  destruct v; simpl; intros H; try discriminate H; injection H as <-;
    (split; [auto|by eexists]).
Qed.

Lemma null_or_not (v : JsVal) : v = JNull \/ v <> JNull.
Proof. destruct v; auto; by right. Qed.

Lemma open_argumentObject_defined (argumentObject : JsVal) :
  open_argumentObject argumentObject <> JUndefined.
Proof. by destruct argumentObject. Qed.

Lemma destructure_argumentObject (argumentObject : JsVal) :
  open_argumentObject argumentObject <> JNull ->
  destructure (open_argumentObject argumentObject) = Ok tt.
Proof.
  intros Hnull. apply destructure_returns; [exact Hnull|].
  apply open_argumentObject_defined.
Qed.

(** What the catch block makes of a caught [Error]. *)
Lemma open_catchMessage_of_error (I : Imports) (root : string) (e : JsError) :
  open_catchMessage I root e = Ok (open_specificMessage I root e).
Proof. reflexivity. Qed.

Section OpenFacts.
Context (I : Imports) (argumentObject : JsVal).

Local Abbreviation firstArgument := (open_argumentObject argumentObject).
Local Abbreviation coinType := (open_coinType I (open_chainId I firstArgument)).
Local Abbreviation arguments := (open_walletArguments I firstArgument).
Local Abbreviation thrown := (thrown_in_try I firstArgument).

(** The ways through [open], one per place where something can be
    thrown. *)

Lemma open_validation_throws e :
  userInputValidator I firstArgument = Err e ->
  open I argumentObject = (Rejected e, [UserInputValidator firstArgument]).
Proof.
  intros Hv. run_open. rewrite Hv. reflexivity.
Qed.

Lemma open_destructuring_throws u :
  userInputValidator I firstArgument = Ok u ->
  firstArgument = JNull ->
  exists msg,
    open I argumentObject =
      (Rejected (TypeError msg), [UserInputValidator firstArgument]).
Proof.
  intros Hv Hnull. run_open. rewrite Hv, Hnull. simpl. by eexists.
Qed.

Lemma open_serializer_throws u e :
  userInputValidator I firstArgument = Ok u ->
  firstArgument <> JNull ->
  derivationPathSerializer I coinType = Err e ->
  open I argumentObject =
    (Rejected e,
     [UserInputValidator firstArgument; DerivationPathSerializer coinType]).
Proof.
  intros Hv Hnull Hs. run_open.
  rewrite Hv, (destructure_argumentObject _ Hnull). simpl. rewrite Hs.
  reflexivity.
Qed.

Lemma open_returns_wallet u root ledger response walletInstance :
  userInputValidator I firstArgument = Ok u ->
  firstArgument <> JNull ->
  derivationPathSerializer I coinType = Ok root ->
  ledgerConnection I = Ok ledger ->
  getAddress ledger root false true = Ok response ->
  LedgerWallet_new I (arguments root response) = Ok walletInstance ->
  open I argumentObject =
    (Resolved (Wallet walletInstance),
     [UserInputValidator firstArgument; DerivationPathSerializer coinType;
      LedgerConnection; GetAddress root false true;
      NewLedgerWallet (arguments root response)]).
Proof.
  intros Hv Hnull Hs Hc Hg Hn. run_open.
  rewrite Hv, (destructure_argumentObject _ Hnull). simpl. rewrite Hs. simpl.
  rewrite Hc. simpl. rewrite Hg. simpl. rewrite Hn. reflexivity.
Qed.

(** Whatever is thrown inside the [try] block is caught.  When its message
    can be read it goes to the handler, and [open] settles as the handler
    says. *)
Lemma open_thrown_in_try u root e made specificMessage :
  userInputValidator I firstArgument = Ok u ->
  firstArgument <> JNull ->
  derivationPathSerializer I coinType = Ok root ->
  thrown root e made ->
  open_catchMessage I root e = Ok specificMessage ->
  open I argumentObject =
    (settle (handleLedgerConnectionError I e specificMessage),
     UserInputValidator firstArgument :: DerivationPathSerializer coinType
       :: made ++ [HandleLedgerConnectionError e specificMessage]).
Proof.
  intros Hv Hnull Hs Ht Hm.
  destruct Ht as [e Hc|ledger e Hc Hg|ledger response e args Hc Hg Hn];
    run_open; rewrite Hv, (destructure_argumentObject _ Hnull); simpl;
    rewrite Hs; simpl; rewrite Hc; simpl;
    rewrite ?Hg; simpl; try (subst args; rewrite Hn; simpl);
    rewrite Hm; simpl;
    destruct (handleLedgerConnectionError I e specificMessage); reflexivity.
Qed.

(** When what was caught is null or undefined, reading its message throws
    out of the catch block and the handler is not called. *)
Lemma open_thrown_unreadable u root e made unreadable :
  userInputValidator I firstArgument = Ok u ->
  firstArgument <> JNull ->
  derivationPathSerializer I coinType = Ok root ->
  thrown root e made ->
  open_catchMessage I root e = Err unreadable ->
  open I argumentObject =
    (Rejected unreadable,
     UserInputValidator firstArgument :: DerivationPathSerializer coinType
       :: made).
Proof.
  intros Hv Hnull Hs Ht Hm.
  destruct Ht as [e Hc|ledger e Hc Hg|ledger response e args Hc Hg Hn];
    run_open; rewrite Hv, (destructure_argumentObject _ Hnull); simpl;
    rewrite Hs; simpl; rewrite Hc; simpl;
    rewrite ?Hg; simpl; try (subst args; rewrite Hn; simpl);
    rewrite Hm; reflexivity.
Qed.

(** Inside the [try] block either the wallet is built or something is
    thrown. *)
Lemma open_in_try root :
  (exists ledger response walletInstance,
      ledgerConnection I = Ok ledger /\
      getAddress ledger root false true = Ok response /\
      LedgerWallet_new I (arguments root response) = Ok walletInstance)
  \/ (exists e made, thrown root e made).
Proof.
  destruct (ledgerConnection I) as [ledger|e] eqn:Hc.
  2:{ right. exists e, [LedgerConnection]. by constructor. }
  destruct (getAddress ledger root false true) as [response|e] eqn:Hg.
  2:{ right. eexists e, _. eapply thrown_by_getAddress; eassumption. }
  destruct (LedgerWallet_new I (arguments root response)) as [w|e] eqn:Hn.
  2:{ right. eexists e, _. eapply thrown_by_constructor; eassumption. }
  left. by exists ledger, response, w.
Qed.

(** The message handed to the handler mentions the root path and the
    message of the error. *)
Lemma specificMessage_has_path root e :
  occurs_in root (open_specificMessage I root e).
Proof.
  exists (messages_userExportGenericError I +:+ ": "), (" " +:+ message e).
  unfold open_specificMessage, open_template. by rewrite !string_app_assoc.
Qed.

Lemma specificMessage_has_message root e :
  occurs_in (message e) (open_specificMessage I root e).
Proof.
  exists (messages_userExportGenericError I +:+ ": " +:+ root +:+ " "), "".
  unfold open_specificMessage, open_template.
  by rewrite string_app_empty_r, !string_app_assoc.
Qed.

(** The validator is the first call of every run. *)
Lemma open_validator_first :
  exists rest,
    snd (open I argumentObject) = UserInputValidator firstArgument :: rest.
Proof. open_cases; by eexists. Qed.

(** Every device call of a run is made for the root path the serializer
    gave for the coin type, and the wallet is built for the resolved chain
    id. *)
Lemma open_trace_uses :
  Forall (serializes coinType) (snd (open I argumentObject)) /\
  Forall (uses_root (derivationPathSerializer I coinType))
         (snd (open I argumentObject)) /\
  Forall (uses_chainId (open_chainId I firstArgument))
         (snd (open I argumentObject)).
Proof.
  open_cases; repeat split; repeat constructor; simpl; congruence.
Qed.

End OpenFacts.

Section OpenClaims.
Context (I : Imports) (argumentObject : JsVal).

Local Abbreviation firstArgument := (open_argumentObject argumentObject).
Local Abbreviation chainId := (open_chainId I firstArgument).
Local Abbreviation coinType := (open_coinType I chainId).
Local Abbreviation thrown := (thrown_in_try I firstArgument).

(** C7.  Validation comes strictly before any I/O: when the validator
    throws, [open] rejects with that very error at once, the validator call
    is the only call made, and so neither the device connection nor the
    [getAddress] request is initiated.  (The validator is the first call of
    every run, whatever it answers.) *)
Theorem open_validation_before_io e :
  userInputValidator I firstArgument = Err e ->
  open I argumentObject = (Rejected e, [UserInputValidator firstArgument]) /\
  no_device_io (snd (open I argumentObject)) = true /\
  (LedgerConnection ∉ snd (open I argumentObject)) /\
  (exists rest,
      snd (open I argumentObject) = UserInputValidator firstArgument :: rest).
Proof.
  intros Hv. pose proof (open_validation_throws I argumentObject e Hv) as Ho.
  rewrite Ho. repeat split.
  - simpl. intros Hin. apply list_elem_of_singleton in Hin. discriminate.
  - by eexists.
Qed.

(** C2.  The coin type is a binary function of the [chainId] of the
    configuration: the mainnet constant when the field is the mainnet id,
    or is undefined and so defaults to it, and the testnet constant for
    every other value of the field.  That coin type is the one the
    serializer is asked for, in every run that gets that far, and the path
    the serializer returns for it is the path of every device call. *)
Theorem open_coinType_binary :
  ((member firstArgument "chainId" = JNum (NETWORK_IDS_HOMESTEAD I) /\
    coinType = PATH_COIN_MAINNET I) \/
   (member firstArgument "chainId" = JUndefined /\
    coinType = PATH_COIN_MAINNET I) \/
   (member firstArgument "chainId" <> JNum (NETWORK_IDS_HOMESTEAD I) /\
    member firstArgument "chainId" <> JUndefined /\
    coinType = PATH_COIN_TESTNET I)) /\
  ((exists e, userInputValidator I firstArgument = Err e) \/
   firstArgument = JNull \/
   DerivationPathSerializer coinType ∈ snd (open I argumentObject)) /\
  Forall (serializes coinType) (snd (open I argumentObject)) /\
  Forall (uses_root (derivationPathSerializer I coinType))
         (snd (open I argumentObject)).
Proof.
  split; [|split].
  - unfold open_coinType, open_chainId.
    destruct (member firstArgument "chainId") as [| |b|n|s|xs|o] eqn:Hc; simpl;
      try (right; right; repeat split; discriminate).
    + right. left. split; [reflexivity|]. by rewrite Z.eqb_refl.
    + destruct (Z.eqb_spec n (NETWORK_IDS_HOMESTEAD I)) as [->|Hne].
      * left. by split.
      * right. right. repeat split; congruence.
  - destruct (userInputValidator I firstArgument) as [u|e] eqn:Hv;
      [|left; by eexists].
    right.
    destruct (null_or_not firstArgument) as [Hnull|Hnull]; [by left|].
    right. revert Hv. open_cases; intros; simplify_eq;
      try (rewrite destructure_argumentObject in * by assumption;
           discriminate);
      repeat constructor.
  - destruct (open_trace_uses I argumentObject) as (Hs & Hr & _). by split.
Qed.


(** C5.  Once validation has passed and [open] has reached the [try] block
    (the argument could be destructured and the serializer returned the
    root path), an error thrown by the device connection or by the address
    request is caught by [open]: it is handed to
    [handleLedgerConnectionError] together with a message that contains the
    root derivation path and the message of the error, that call is the last
    thing [open] does, and the promise settles as the handler decides (the
    error does not leave [open] unhandled). *)
Theorem open_reports_connection_errors u root (e : JsError) :
  userInputValidator I firstArgument = Ok u ->
  firstArgument <> JNull ->
  derivationPathSerializer I coinType = Ok root ->
  (ledgerConnection I = Err e \/
   exists ledger, ledgerConnection I = Ok ledger /\
                  getAddress ledger root false true = Err e) ->
  let specificMessage := open_specificMessage I root e in
  (exists calls,
      open I argumentObject =
        (settle (handleLedgerConnectionError I e specificMessage),
         UserInputValidator firstArgument :: calls ++
           [HandleLedgerConnectionError e specificMessage])) /\
  occurs_in root specificMessage /\
  occurs_in (message e) specificMessage.
Proof.
  intros Hv Hnull Hs Hthrown msg. split; [|split].
  - destruct Hthrown as [Hc|(ledger & Hc & Hg)].
    + exists [DerivationPathSerializer coinType; LedgerConnection].
      apply (open_thrown_in_try I argumentObject u root e [LedgerConnection]
               msg Hv Hnull Hs); [by constructor|reflexivity].
    + exists [DerivationPathSerializer coinType; LedgerConnection;
              GetAddress root false true].
      apply (open_thrown_in_try I argumentObject u root e
               [LedgerConnection; GetAddress root false true] msg Hv Hnull Hs);
        [eapply thrown_by_getAddress; eassumption|reflexivity].
  - apply specificMessage_has_path.
  - apply specificMessage_has_message.
Qed.

(** C10, as the code has it.  The promise of [open] rejects when the
    validator throws, with the validator's error.  After a passed
    validation, once [open] is in the [try] block, every error thrown by the
    connection, by [getAddress] or by the wallet constructor is caught and
    handed to the handler, and the promise settles as the handler does: it
    resolves with the value the handler returns (which may be undefined),
    and it rejects with what the handler throws when the handler throws. *)
Theorem open_settles_as_the_handler :
  (forall t, userInputValidator I firstArgument = Err t ->
             fst (open I argumentObject) = Rejected t) /\
  (forall u root (e : JsError) made,
      userInputValidator I firstArgument = Ok u ->
      firstArgument <> JNull ->
      derivationPathSerializer I coinType = Ok root ->
      thrown root e made ->
      last (snd (open I argumentObject))
        = Some (HandleLedgerConnectionError e (open_specificMessage I root e)) /\
      (forall v,
          handleLedgerConnectionError I e (open_specificMessage I root e) = Ok v ->
          fst (open I argumentObject) = Resolved (Handled v)) /\
      (forall t,
          handleLedgerConnectionError I e (open_specificMessage I root e) = Err t ->
          fst (open I argumentObject) = Rejected t)).
Proof.
  split.
  - intros t Hv. by rewrite (open_validation_throws I argumentObject t Hv).
  - intros u root e made Hv Hnull Hs Ht.
    rewrite (open_thrown_in_try I argumentObject u root e made
               (open_specificMessage I root e) Hv Hnull Hs Ht eq_refl).
    simpl. split; [|split].
    + destruct Ht; reflexivity.
    + by intros v ->.
    + by intros t ->.
Qed.

End OpenClaims.

(* ===================================================================== *)
(** ** [open] with the validator of the specification *)
(* ===================================================================== *)

Import Modelled.

(** The validator does not look at an [addressCount] that reads as
    undefined. *)
Lemma userInputValidator_missing_addressCount (o : gmap string JsVal) :
  get o "addressCount" = JUndefined ->
  Modelled.userInputValidator (JObj o) = check_field o "chainId" valid_chainId.
Proof.
  intros Hmissing. unfold Modelled.userInputValidator, check_field at 1.
  by rewrite Hmissing.
Qed.

(** C1, as the code has it.  With the validator of the specification, a
    configuration object (or no argument at all) whose [addressCount] is
    missing or undefined passes validation as soon as its [chainId] is
    missing, undefined or a positive integer; [open] then goes on to the
    device: once the serializer has returned the root path, the connection
    is the next call. *)
Theorem open_missing_addressCount_passes (I : Imports)
    (argumentObject : JsVal) (configuration : gmap string JsVal)
    (root : string) :
  Ledger.userInputValidator I = Modelled.userInputValidator ->
  open_argumentObject argumentObject = JObj configuration ->
  open_addressCount (open_argumentObject argumentObject) = JUndefined ->
  (member (open_argumentObject argumentObject) "chainId" = JUndefined \/
   valid_chainId (member (open_argumentObject argumentObject) "chainId") = true) ->
  open_rootDerivationPath I (open_argumentObject argumentObject) = Ok root ->
  Ledger.userInputValidator I (open_argumentObject argumentObject) = Ok tt /\
  (exists rest,
      snd (open I argumentObject) =
        UserInputValidator (open_argumentObject argumentObject)
          :: DerivationPathSerializer
               (open_coinType I (open_chainId I (open_argumentObject argumentObject)))
          :: LedgerConnection :: rest) /\
  no_device_io (snd (open I argumentObject)) = false.
Proof.
  intros Hval Hobj Hmissing Hchain Hroot.
  assert (Hv : Ledger.userInputValidator I (open_argumentObject argumentObject)
               = Ok tt).
  { rewrite Hval. rewrite Hobj in *. simpl in Hmissing, Hchain.
    rewrite userInputValidator_missing_addressCount by exact Hmissing.
    unfold check_field. destruct Hchain as [->|Hok]; [reflexivity|].
    destruct (get _ "chainId"); try reflexivity; by rewrite Hok. }
  split; [exact Hv|].
  assert (Hnull : open_argumentObject argumentObject <> JNull)
    by (by rewrite Hobj).
  unfold open_rootDerivationPath in Hroot.
  destruct (open_in_try I argumentObject root)
    as [(l & r & w & Hc & Hg & Hn)|(e & made & Ht)].
  - rewrite (open_returns_wallet I argumentObject tt root l r w
               Hv Hnull Hroot Hc Hg Hn).
    split; [by eexists|reflexivity].
  - destruct (open_catchMessage I root e) as [msg|unreadable] eqn:Hm.
    + rewrite (open_thrown_in_try I argumentObject tt root e made msg
                 Hv Hnull Hroot Ht Hm).
      destruct Ht; (split; [by eexists|reflexivity]).
    + rewrite (open_thrown_unreadable I argumentObject tt root e made unreadable
                 Hv Hnull Hroot Ht Hm).
      destruct Ht; (split; [by eexists|reflexivity]).
Qed.

Lemma open_missing_addressCount_passes_witness :
  open_argumentObject JUndefined = JObj ∅ /\
  Ledger.userInputValidator device_absent (open_argumentObject JUndefined) = Ok tt /\
  (exists rest,
      snd (open device_absent JUndefined) =
        UserInputValidator (open_argumentObject JUndefined)
          :: DerivationPathSerializer
               (open_coinType device_absent
                  (open_chainId device_absent (open_argumentObject JUndefined)))
          :: LedgerConnection :: rest) /\
  no_device_io (snd (open device_absent JUndefined)) = false.
Proof.
  split; [reflexivity|].
  apply (open_missing_addressCount_passes device_absent JUndefined ∅
           "m/44'/60'/0'").
  - reflexivity.
  - reflexivity.
  - reflexivity.
  - left. reflexivity.
  - reflexivity.
Defined.

(** C1, as stated, fails: called with [{}], whose [addressCount] is
    missing, [open] is not rejected by the validator; it connects to the
    device, asks for the address and resolves with a wallet. *)
Lemma open_missing_addressCount_connects :
  open_addressCount (open_argumentObject (JObj ∅)) = JUndefined /\
  Ledger.userInputValidator device_ready (open_argumentObject (JObj ∅)) = Ok tt /\
  (exists walletInstance,
      open device_ready (JObj ∅) =
        (Resolved (Wallet walletInstance),
         [UserInputValidator (JObj ∅); DerivationPathSerializer 60;
          LedgerConnection;
          GetAddress "m/44'/60'/0'" false true;
          NewLedgerWallet
            {| arg_publicKey := "04ab"; arg_chainCode := "cc01";
               arg_rootDerivationPath := "m/44'/60'/0'";
               arg_addressCount := JUndefined;
               arg_chainId := JNum 1 |}])) /\
  no_device_io (snd (open device_ready (JObj ∅))) = false /\
  ~ (exists e, fst (open device_ready (JObj ∅)) = Rejected e).
Proof.
  split; [reflexivity|]. split; [reflexivity|]. split; [|split].
  - eexists. vm_compute. reflexivity.
  - vm_compute. reflexivity.
  - intros [e He]. vm_compute in He. discriminate.
Qed.

(** Witnesses for the properties of [open]. *)

Lemma open_validation_before_io_witness :
  open device_ready (JObj {[ "addressCount" := JStr "3" ]}) =
    (Rejected (ValidationError "addressCount"),
     [UserInputValidator
        (open_argumentObject (JObj {[ "addressCount" := JStr "3" ]}))]) /\
  no_device_io (snd (open device_ready (JObj {[ "addressCount" := JStr "3" ]}))) = true /\
  (LedgerConnection ∉ snd (open device_ready (JObj {[ "addressCount" := JStr "3" ]}))) /\
  (exists rest,
      snd (open device_ready (JObj {[ "addressCount" := JStr "3" ]})) =
        UserInputValidator
          (open_argumentObject (JObj {[ "addressCount" := JStr "3" ]}))
          :: rest).
Proof.
  apply (open_validation_before_io device_ready
           (JObj {[ "addressCount" := JStr "3" ]}) (ValidationError "addressCount")).
  vm_compute. reflexivity.
Defined.


Lemma open_reports_connection_errors_witness :
  Ledger.userInputValidator device_absent (open_argumentObject JUndefined) = Ok tt /\
  open_argumentObject JUndefined <> JNull /\
  (exists calls,
      open device_absent JUndefined =
        (Resolved (Handled JUndefined),
         UserInputValidator (open_argumentObject JUndefined) :: calls ++
           [HandleLedgerConnectionError
              {| name := "TransportError"; message := "No device found" |}
              "Could not export the public key: m/44'/60'/0' No device found"])) /\
  occurs_in "m/44'/60'/0'"
    "Could not export the public key: m/44'/60'/0' No device found" /\
  occurs_in "No device found"
    "Could not export the public key: m/44'/60'/0' No device found".
Proof.
  split; [reflexivity|]. split; [discriminate|].
  apply (open_reports_connection_errors device_absent JUndefined tt
           "m/44'/60'/0'"
           {| name := "TransportError"; message := "No device found" |}).
  - reflexivity.
  - discriminate.
  - reflexivity.
  - left. reflexivity.
Defined.

Lemma open_settles_as_the_handler_witness :
  fst (open device_rejecting JUndefined) = Resolved (Handled JUndefined) /\
  fst (open Observed.rethrowing JUndefined) =
    Rejected {| name := "Error";
                message := "Could not export the public key: m/44'/60'/0' No device found" |}.
Proof.
  split.
  - destruct (open_settles_as_the_handler device_rejecting JUndefined)
      as [_ Hcaught].
    destruct (Hcaught tt "m/44'/60'/0'"
                {| name := "TransportStatusError"; message := "Denied by the user" |}
                [LedgerConnection; GetAddress "m/44'/60'/0'" false true])
      as (_ & Hreturns & _).
    + reflexivity.
    + discriminate.
    + reflexivity.
    + eapply thrown_by_getAddress; reflexivity.
    + apply Hreturns. reflexivity.
  - destruct (open_settles_as_the_handler Observed.rethrowing JUndefined)
      as [_ Hcaught].
    destruct (Hcaught tt "m/44'/60'/0'"
                {| name := "TransportError"; message := "No device found" |}
                [LedgerConnection])
      as (_ & _ & Hthrows).
    + reflexivity.
    + discriminate.
    + reflexivity.
    + apply thrown_by_connection. reflexivity.
    + apply Hthrows. reflexivity.
Defined.

(** C10, as stated, fails: with no device plugged in and a handler that
    throws a consolidated error, the validator returns, and yet the promise
    of [open] rejects; the error it rejects with is the handler's, not the
    validator's. *)
Lemma open_rejects_after_validation :
  Ledger.userInputValidator Observed.rethrowing (open_argumentObject JUndefined) = Ok tt /\
  open Observed.rethrowing JUndefined =
    (Rejected {| name := "Error";
                 message := "Could not export the public key: m/44'/60'/0' No device found" |},
     [UserInputValidator (JObj ∅); DerivationPathSerializer 60;
      LedgerConnection;
      HandleLedgerConnectionError
        {| name := "TransportError"; message := "No device found" |}
        "Could not export the public key: m/44'/60'/0' No device found"]) /\
  ~ (forall t, fst (open Observed.rethrowing JUndefined) = Rejected t ->
               Ledger.userInputValidator Observed.rethrowing (open_argumentObject JUndefined)
                 = Err t).
Proof.
  split; [reflexivity|]. split; [vm_compute; reflexivity|].
  intros Honly.
  specialize (Honly {| name := "Error";
                       message := "Could not export the public key: m/44'/60'/0' No device found" |}).
  discriminate Honly. vm_compute. reflexivity.
Qed.

(* ===================================================================== *)
(** ** The wallet constructor *)
(* ===================================================================== *)

Section WalletClass.
Variable derive : string -> string -> string -> string.

Lemma LedgerWallet_addresses_length args :
  length (wallet_addresses (LedgerWallet_constructor derive args))
    = iterations (arg_addressCount args).
Proof. simpl. by rewrite length_map, length_seq. Qed.

Lemma LedgerWallet_addresses_lookup args i :
  i < iterations (arg_addressCount args) ->
  wallet_addresses (LedgerWallet_constructor derive args) !! i
    = Some (deriveAddress derive (arg_publicKey args) (arg_chainCode args)
                          (arg_rootDerivationPath args) i).
Proof.
  intros Hi. simpl. change map with (@fmap list _) at 1.
  rewrite list_lookup_fmap, lookup_seq_lt by exact Hi. reflexivity.
Qed.

Lemma LedgerWallet_addresses_indices args :
  map addr_index (wallet_addresses (LedgerWallet_constructor derive args))
    = seq 0 (iterations (arg_addressCount args)).
Proof. simpl. rewrite map_map. simpl. apply map_id. Qed.

(** C6.  For a non-negative [addressCount] the constructor derives exactly
    [addressCount] addresses; the one at position [i] is child [i], derived
    from the path [rootDerivationPath/0/i], so the indices run from [0] to
    [addressCount - 1] in that order; and a second construction from the
    same public key, chain code, root path and count yields the same
    sequence of addresses. *)
Theorem LedgerWallet_derives_in_order (args : WalletArguments) (n : Z) :
  arg_addressCount args = JNum n ->
  (0 <= n)%Z ->
  Z.of_nat (length (wallet_addresses (LedgerWallet_constructor derive args))) = n /\
  map addr_index (wallet_addresses (LedgerWallet_constructor derive args))
    = seq 0 (Z.to_nat n) /\
  (forall i : nat, (Z.of_nat i < n)%Z ->
     wallet_addresses (LedgerWallet_constructor derive args) !! i =
       Some {| addr_index := i;
               addr_path := arg_rootDerivationPath args +:+ "/0/" +:+ pretty i;
               addr_value :=
                 derive (arg_publicKey args) (arg_chainCode args)
                        (arg_rootDerivationPath args +:+ "/0/" +:+ pretty i) |}) /\
  (forall again : WalletArguments,
     arg_publicKey again = arg_publicKey args ->
     arg_chainCode again = arg_chainCode args ->
     arg_rootDerivationPath again = arg_rootDerivationPath args ->
     arg_addressCount again = arg_addressCount args ->
     wallet_addresses (LedgerWallet_constructor derive again)
       = wallet_addresses (LedgerWallet_constructor derive args)).
Proof.
  intros Hcount Hn.
  assert (Hit : iterations (arg_addressCount args) = Z.to_nat n)
    by (by rewrite Hcount).
  split; [|split; [|split]].
  - rewrite LedgerWallet_addresses_length, Hit. lia.
  - by rewrite LedgerWallet_addresses_indices, Hit.
  - intros i Hi. rewrite LedgerWallet_addresses_lookup by (rewrite Hit; lia).
    reflexivity.
  - intros again Hpk Hcc Hroot Hagain. simpl.
    by rewrite Hpk, Hcc, Hroot, Hagain.
Qed.

End WalletClass.

Lemma LedgerWallet_derives_in_order_witness :
  arg_addressCount sample_arguments = JNum 3 /\
  (0 <= 3)%Z /\
  Z.of_nat (length (wallet_addresses
                      (LedgerWallet_constructor sample_derive sample_arguments))) = 3%Z /\
  map addr_index (wallet_addresses
                    (LedgerWallet_constructor sample_derive sample_arguments))
    = [0; 1; 2] /\
  map addr_path (wallet_addresses
                   (LedgerWallet_constructor sample_derive sample_arguments))
    = ["m/44'/60'/0'/0/0"; "m/44'/60'/0'/0/1"; "m/44'/60'/0'/0/2"].
Proof.
  destruct (LedgerWallet_derives_in_order sample_derive sample_arguments 3)
    as (Hlen & Hidx & _).
  - reflexivity.
  - discriminate.
  - split; [reflexivity|]. split; [discriminate|]. split; [exact Hlen|].
    split; [exact Hidx|]. vm_compute. reflexivity.
Defined.

(* ===================================================================== *)
(** ** Properties of the provider generators *)
(* ===================================================================== *)

Import Providers.

Section GeneratorFacts.
Context (I : Providers.Imports).

Local Abbreviation net network := (or_default network (JStr (DEFAULT_NETWORK I))).

(** *** [etherscan] *)

Lemma etherscan_keyed_throws network apiKey e :
  truthy apiKey = true ->
  providers I EtherscanProvider [net network; apiKey] = Err e ->
  etherscan I network apiKey =
    (Ok empty_object,
     [New EtherscanProvider [net network; apiKey];
      Error (errors_providers_etherscan_connect I) [net network; apiKey] e]).
Proof. intros Hk H1. run_generator. rewrite Hk. simpl. by rewrite H1. Qed.

Lemma etherscan_unkeyed_throws network apiKey e :
  truthy apiKey = false ->
  providers I EtherscanProvider [net network] = Err e ->
  etherscan I network apiKey =
    (Ok empty_object,
     [Warn (warnings_providers_etherscan_apiKey I);
      New EtherscanProvider [net network];
      Error (errors_providers_etherscan_connect I) [net network; apiKey] e]).
Proof. intros Hk H2. run_generator. rewrite Hk. simpl. by rewrite H2. Qed.

Lemma etherscan_unkeyed_constructs network apiKey p :
  truthy apiKey = false ->
  providers I EtherscanProvider [net network] = Ok p ->
  etherscan I network apiKey =
    (Ok p,
     [Warn (warnings_providers_etherscan_apiKey I);
      New EtherscanProvider [net network]]).
Proof. intros Hk H2. run_generator. rewrite Hk. simpl. by rewrite H2. Qed.

Lemma etherscan_keyed_overwritten network apiKey p1 p2 :
  truthy apiKey = true ->
  providers I EtherscanProvider [net network; apiKey] = Ok p1 ->
  providers I EtherscanProvider [net network] = Ok p2 ->
  etherscan I network apiKey =
    (Ok p2,
     [New EtherscanProvider [net network; apiKey];
      Warn (warnings_providers_etherscan_apiKey I);
      New EtherscanProvider [net network]]).
Proof.
  intros Hk H1 H2. run_generator. rewrite Hk. simpl. rewrite H1. simpl.
  by rewrite H2.
Qed.

(** The keyed provider is what comes back when only the second
    construction throws: the assignment made before the throw stays. *)
Lemma etherscan_keyed_kept network apiKey p1 e :
  truthy apiKey = true ->
  providers I EtherscanProvider [net network; apiKey] = Ok p1 ->
  providers I EtherscanProvider [net network] = Err e ->
  etherscan I network apiKey =
    (Ok p1,
     [New EtherscanProvider [net network; apiKey];
      Warn (warnings_providers_etherscan_apiKey I);
      New EtherscanProvider [net network];
      Error (errors_providers_etherscan_connect I) [net network; apiKey] e]).
Proof.
  intros Hk H1 H2. run_generator. rewrite Hk. simpl. rewrite H1. simpl.
  by rewrite H2.
Qed.

(** *** [infura] *)

Lemma infura_keyed_throws network apiKey e :
  truthy apiKey = true ->
  providers I InfuraProvider [net network; apiKey] = Err e ->
  infura I network apiKey =
    (Ok empty_object,
     [New InfuraProvider [net network; apiKey];
      Error (errors_providers_infura_connect I) [net network; apiKey] e]).
Proof. intros Hk H1. run_generator. rewrite Hk. simpl. by rewrite H1. Qed.

Lemma infura_unkeyed_throws network apiKey e :
  truthy apiKey = false ->
  providers I InfuraProvider [net network] = Err e ->
  infura I network apiKey =
    (Ok empty_object,
     [Warn (warnings_providers_infura_apiKey I);
      New InfuraProvider [net network];
      Error (errors_providers_infura_connect I) [net network; apiKey] e]).
Proof. intros Hk H2. run_generator. rewrite Hk. simpl. by rewrite H2. Qed.

Lemma infura_unkeyed_constructs network apiKey p :
  truthy apiKey = false ->
  providers I InfuraProvider [net network] = Ok p ->
  infura I network apiKey =
    (Ok p,
     [Warn (warnings_providers_infura_apiKey I);
      New InfuraProvider [net network]]).
Proof. intros Hk H2. run_generator. rewrite Hk. simpl. by rewrite H2. Qed.

Lemma infura_keyed_overwritten network apiKey p1 p2 :
  truthy apiKey = true ->
  providers I InfuraProvider [net network; apiKey] = Ok p1 ->
  providers I InfuraProvider [net network] = Ok p2 ->
  infura I network apiKey =
    (Ok p2,
     [New InfuraProvider [net network; apiKey];
      Warn (warnings_providers_infura_apiKey I);
      New InfuraProvider [net network]]).
Proof.
  intros Hk H1 H2. run_generator. rewrite Hk. simpl. rewrite H1. simpl.
  by rewrite H2.
Qed.

Lemma infura_keyed_kept network apiKey p1 e :
  truthy apiKey = true ->
  providers I InfuraProvider [net network; apiKey] = Ok p1 ->
  providers I InfuraProvider [net network] = Err e ->
  infura I network apiKey =
    (Ok p1,
     [New InfuraProvider [net network; apiKey];
      Warn (warnings_providers_infura_apiKey I);
      New InfuraProvider [net network];
      Error (errors_providers_infura_connect I) [net network; apiKey] e]).
Proof.
  intros Hk H1 H2. run_generator. rewrite Hk. simpl. rewrite H1. simpl.
  by rewrite H2.
Qed.

(** *** [metamask] *)

Lemma metamask_unavailable network :
  negb (truthy (global_web3 I)) || negb (truthy (global_web3_currentProvider I)) = true ->
  metamask I network =
    (Ok empty_object, [Warn (warnings_providers_metamask_notAvailable I)]).
Proof. intros Hg. run_generator. by rewrite Hg. Qed.

Lemma metamask_throws network e :
  negb (truthy (global_web3 I)) || negb (truthy (global_web3_currentProvider I)) = false ->
  providers I Web3Provider [global_web3_currentProvider I; net network] = Err e ->
  metamask I network =
    (Ok empty_object,
     [New Web3Provider [global_web3_currentProvider I; net network];
      Error (errors_providers_metamask_connect I) [net network] e]).
Proof. intros Hg H1. run_generator. rewrite Hg. simpl. by rewrite H1. Qed.

Lemma metamask_constructs network p :
  negb (truthy (global_web3 I)) || negb (truthy (global_web3_currentProvider I)) = false ->
  providers I Web3Provider [global_web3_currentProvider I; net network] = Ok p ->
  metamask I network =
    (Ok p, [New Web3Provider [global_web3_currentProvider I; net network]]).
Proof. intros Hg H1. run_generator. rewrite Hg. simpl. by rewrite H1. Qed.

(** *** [localhost] *)

Local Abbreviation endpoint url := (or_default url (JStr (localhost_default_url I))).

Lemma localhost_throws url network e :
  providers I JsonRpcProvider [endpoint url; net network] = Err e ->
  localhost I url network =
    (Ok empty_object,
     [New JsonRpcProvider [endpoint url; net network];
      Error (errors_providers_localhost_connect I) [endpoint url; net network] e]).
Proof. intros H1. run_generator. by rewrite H1. Qed.

Lemma localhost_constructs url network p :
  providers I JsonRpcProvider [endpoint url; net network] = Ok p ->
  localhost I url network =
    (Ok p, [New JsonRpcProvider [endpoint url; net network]]).
Proof. intros H1. run_generator. by rewrite H1. Qed.

End GeneratorFacts.

Section GeneratorClaims.
Context (I : Providers.Imports).

Local Abbreviation net network := (or_default network (JStr (DEFAULT_NETWORK I))).

(** No generator throws: whatever the constructors do, the caller gets a
    value back. *)
Lemma generators_never_throw (m : Method) (args : list JsVal) :
  exists p, fst (colonyWallet I m args) = Ok p.
Proof.
  destruct m; simpl.
  - destruct (truthy (arg 1 args)) eqn:Hk.
    + destruct (providers I EtherscanProvider [net (arg 0 args); arg 1 args]) eqn:H1;
        [|by_case etherscan_keyed_throws].
      destruct (providers I EtherscanProvider [net (arg 0 args)]) eqn:H2;
        [by_case etherscan_keyed_overwritten|by_case etherscan_keyed_kept].
    + destruct (providers I EtherscanProvider [net (arg 0 args)]) eqn:H2;
        [by_case etherscan_unkeyed_constructs|by_case etherscan_unkeyed_throws].
  - destruct (truthy (arg 1 args)) eqn:Hk.
    + destruct (providers I InfuraProvider [net (arg 0 args); arg 1 args]) eqn:H1;
        [|by_case infura_keyed_throws].
      destruct (providers I InfuraProvider [net (arg 0 args)]) eqn:H2;
        [by_case infura_keyed_overwritten|by_case infura_keyed_kept].
    + destruct (providers I InfuraProvider [net (arg 0 args)]) eqn:H2;
        [by_case infura_unkeyed_constructs|by_case infura_unkeyed_throws].
  - destruct (providers I JsonRpcProvider
                [or_default (arg 0 args) (JStr (localhost_default_url I));
                 net (arg 1 args)]) eqn:H1;
      [by_case localhost_constructs|by_case localhost_throws].
  - destruct (negb (truthy (global_web3 I))
              || negb (truthy (global_web3_currentProvider I))) eqn:Hg;
      [by_case metamask_unavailable|].
    destruct (providers I Web3Provider
                [global_web3_currentProvider I; net (arg 0 args)]) eqn:H1;
      [by_case metamask_constructs|by_case metamask_throws].
Qed.


(** C4.  With no injected wallet (no [global.web3], or one without a
    [currentProvider]), [metamask] emits the "not available" warning, once
    and as the only thing it logs, attempts no construction and returns the
    empty object. *)
Theorem metamask_not_available (network : JsVal) :
  truthy (global_web3 I) = false \/
  truthy (global_web3_currentProvider I) = false ->
  metamask I network =
    (Ok empty_object, [Warn (warnings_providers_metamask_notAvailable I)]) /\
  warnings (snd (metamask I network)) =
    [warnings_providers_metamask_notAvailable I] /\
  constructions (snd (metamask I network)) = [].
Proof.
  intros Habsent.
  assert (Hg : negb (truthy (global_web3 I))
               || negb (truthy (global_web3_currentProvider I)) = true).
  { destruct Habsent as [->| ->]; [reflexivity|apply orb_true_r]. }
  rewrite (metamask_unavailable I network Hg). by repeat split.
Qed.

(** C9.  With a truthy [apiKey] and constructors that do not throw,
    [etherscan] and [infura] build the keyed provider, then emit the
    missing-api-key warning all the same and build a second provider from
    the network alone; the second one overwrites the first and is the one
    returned, so the key is not among the arguments the returned provider
    was constructed from. *)
Theorem keyed_provider_overwritten (network apiKey : JsVal) :
  truthy apiKey = true ->
  (forall keyed unkeyed,
      providers I EtherscanProvider [net network; apiKey] = Ok keyed ->
      providers I EtherscanProvider [net network] = Ok unkeyed ->
      etherscan I network apiKey =
        (Ok unkeyed,
         [New EtherscanProvider [net network; apiKey];
          Warn (warnings_providers_etherscan_apiKey I);
          New EtherscanProvider [net network]])) /\
  (forall keyed unkeyed,
      providers I InfuraProvider [net network; apiKey] = Ok keyed ->
      providers I InfuraProvider [net network] = Ok unkeyed ->
      infura I network apiKey =
        (Ok unkeyed,
         [New InfuraProvider [net network; apiKey];
          Warn (warnings_providers_infura_apiKey I);
          New InfuraProvider [net network]])).
Proof.
  intros Hk. split; intros keyed unkeyed H1 H2.
  - by apply etherscan_keyed_overwritten with keyed.
  - by apply infura_keyed_overwritten with keyed.
Qed.

End GeneratorClaims.

(** Witnesses for the properties of the generators. *)


Lemma metamask_not_available_witness :
  truthy (global_web3 node_host) = false /\
  metamask node_host JUndefined =
    (Ok empty_object, [Warn "metamask: not available"]).
Proof.
  split; [reflexivity|].
  apply (metamask_not_available node_host JUndefined).
  left. reflexivity.
Defined.

Lemma keyed_provider_overwritten_witness :
  truthy (JStr "key") = true /\
  etherscan node_host (JStr "ropsten") (JStr "key") =
    (Ok (JObj {[ "network" := JStr "ropsten"; "apiKey" := JUndefined ]}),
     [New EtherscanProvider [JStr "ropsten"; JStr "key"];
      Warn "etherscan: no api key";
      New EtherscanProvider [JStr "ropsten"]]) /\
  infura node_host (JStr "ropsten") (JStr "key") =
    (Ok (JObj {[ "network" := JStr "ropsten"; "apiKey" := JUndefined ]}),
     [New InfuraProvider [JStr "ropsten"; JStr "key"];
      Warn "infura: no api key";
      New InfuraProvider [JStr "ropsten"]]).
Proof.
  destruct (keyed_provider_overwritten node_host (JStr "ropsten") (JStr "key")
              eq_refl) as [Hetherscan Hinfura].
  split; [reflexivity|]. split.
  - apply (Hetherscan
             (JObj {[ "network" := JStr "ropsten"; "apiKey" := JStr "key" ]}));
      reflexivity.
  - apply (Hinfura
             (JObj {[ "network" := JStr "ropsten"; "apiKey" := JStr "key" ]}));
      reflexivity.
Defined.



(* ===================================================================== *)
(** ** Sample runs *)
(* ===================================================================== *)

Example serializer_mainnet :
  Modelled.derivationPathSerializer 60 = "m/44'/60'/0'".
Proof. vm_compute. reflexivity. Qed.

Example open_on_a_testnet :
  open device_absent (JObj {[ "chainId" := JNum 3 ]}) =
    (Resolved (Handled JUndefined),
     [UserInputValidator (JObj {[ "chainId" := JNum 3 ]});
      DerivationPathSerializer 1;
      LedgerConnection;
      HandleLedgerConnectionError
        {| name := "TransportError"; message := "No device found" |}
        "Could not export the public key: m/44'/1'/0' No device found"]).
Proof. vm_compute. reflexivity. Qed.

Example open_with_a_negative_count :
  open device_ready (JObj {[ "addressCount" := JNum (-1) ]}) =
    (Rejected (ValidationError "addressCount"),
     [UserInputValidator (JObj {[ "addressCount" := JNum (-1) ]})]).
Proof. vm_compute. reflexivity. Qed.

Example open_with_a_textual_chainId :
  open device_ready (JObj {[ "addressCount" := JNum 1; "chainId" := JStr "1" ]}) =
    (Rejected (ValidationError "chainId"),
     [UserInputValidator
        (JObj {[ "addressCount" := JNum 1; "chainId" := JStr "1" ]})]).
Proof. vm_compute. reflexivity. Qed.

Example open_two_addresses :
  option_map (map addr_path)
    (match fst (open device_ready (JObj {[ "addressCount" := JNum 2 ]})) with
     | Resolved (Wallet w) => Some (wallet_addresses w)
     | _ => None
     end) = Some ["m/44'/60'/0'/0/0"; "m/44'/60'/0'/0/1"].
Proof. vm_compute. reflexivity. Qed.

(** [open(null)]: the validator of the specification refuses it. *)
Example open_null_is_refused :
  open device_ready JNull =
    (Rejected (ValidationError "firstArgument"), [UserInputValidator JNull]).
Proof. vm_compute. reflexivity. Qed.

(** [open(null)] behind a validator that lets it through: the destructuring
    throws before anything else is called. *)
Example open_null_unchecked :
  exists msg,
    open Observed.unchecked JNull =
      (Rejected (TypeError msg), [UserInputValidator JNull]).
Proof. eexists. vm_compute. reflexivity. Qed.

(** A connection that rejects with no value: reading the message of what
    was caught throws, and the handler is not called. *)
Example open_caught_nothing :
  exists msg,
    open Observed.rejecting_with_nothing JUndefined =
      (Rejected (TypeError msg),
       [UserInputValidator (JObj ∅); DerivationPathSerializer 60;
        LedgerConnection]).
Proof. eexists. vm_compute. reflexivity. Qed.

(** A serializer that throws: [open] rejects before it connects. *)
Example open_without_a_path :
  open Observed.refusing_serializer JUndefined =
    (Rejected (ValidationError "coinType"),
     [UserInputValidator (JObj ∅); DerivationPathSerializer 60]).
Proof. vm_compute. reflexivity. Qed.

Example etherscan_without_key :
  etherscan node_host JUndefined JUndefined =
    (Ok (JObj {[ "network" := JStr "homestead"; "apiKey" := JUndefined ]}),
     [Warn "etherscan: no api key";
      New EtherscanProvider [JStr "homestead"]]).
Proof. vm_compute. reflexivity. Qed.

Example localhost_defaults :
  localhost node_host JUndefined JUndefined =
    (Ok (JObj {[ "url" := JStr "http://localhost:8545";
                 "network" := JStr "homestead" ]}),
     [New JsonRpcProvider [JStr "http://localhost:8545"; JStr "homestead"]]).
Proof. vm_compute. reflexivity. Qed.

Example metamask_in_a_browser :
  metamask browser_host (JStr "ropsten") =
    (Ok (JObj {[ "web3" := JObj ∅; "network" := JStr "ropsten" ]}),
     [New Web3Provider [JObj ∅; JStr "ropsten"]]).
Proof. vm_compute. reflexivity. Qed.

Example metamask_with_a_bad_network :
  metamask browser_host (JStr "nowhere") =
    (Ok empty_object,
     [New Web3Provider [JObj ∅; JStr "nowhere"];
      Error "metamask: connection failed" [JStr "nowhere"]
            {| name := "Error"; message := "invalid network" |}]).
Proof. vm_compute. reflexivity. Qed.

(* ===================================================================== *)
(** ** Further properties of [open] *)
(* ===================================================================== *)

Import Observed.

Section OpenFurther.
Context (I : Ledger.Imports) (argumentObject : JsVal).

Local Abbreviation firstArgument := (open_argumentObject argumentObject).
Local Abbreviation chainId := (open_chainId I firstArgument).
Local Abbreviation coinType := (open_coinType I chainId).
Local Abbreviation root := (open_rootDerivationPath I firstArgument).

(** X1.  [open] reaches the device exactly when it gets to the [try]
    block: the connection is attempted if and only if the validator
    returns, the argument is not null (so that it can be destructured) and
    the serializer returns a path. *)
Theorem open_connects_iff_validated :
  (LedgerConnection ∈ snd (open I argumentObject)) <->
  (exists u, Ledger.userInputValidator I firstArgument = Ok u) /\
  firstArgument <> JNull /\
  (exists path, root = Ok path).
Proof.
  unfold open_rootDerivationPath. split.
  - intros Hin.
    destruct (Ledger.userInputValidator I firstArgument) as [u|e] eqn:Hv.
    2:{ rewrite (open_validation_throws I argumentObject e Hv) in Hin.
        simpl in Hin. in_trace Hin. }
    destruct (null_or_not firstArgument) as [Hnull|Hnull].
    { destruct (open_destructuring_throws I argumentObject u Hv Hnull)
        as [msg Ho].
      rewrite Ho in Hin. simpl in Hin. in_trace Hin. }
    destruct (Ledger.derivationPathSerializer I coinType) as [path|e] eqn:Hs.
    2:{ rewrite (open_serializer_throws I argumentObject u e Hv Hnull Hs) in Hin.
        simpl in Hin. in_trace Hin. }
    repeat split; eauto.
  - intros ([u Hv] & Hnull & [path Hs]).
    destruct (open_in_try I argumentObject path)
      as [(l & r & w & Hc & Hg & Hn)|(caught & made & Ht)].
    { rewrite (open_returns_wallet I argumentObject u path l r w
                 Hv Hnull Hs Hc Hg Hn). simpl. repeat constructor. }
    destruct (open_catchMessage I path caught) as [msg|unreadable] eqn:Hm.
    + rewrite (open_thrown_in_try I argumentObject u path caught made msg
                 Hv Hnull Hs Ht Hm).
      destruct Ht; simpl; repeat constructor.
    + rewrite (open_thrown_unreadable I argumentObject u path caught made
                 unreadable Hv Hnull Hs Ht Hm).
      destruct Ht; simpl; repeat constructor.
Qed.

(** X2.  One run of [open] makes every call at most once, the validator
    exactly once: nothing is retried, and a trace has at most six calls
    (validator, serializer, connection, address request, constructor,
    handler). *)
Theorem open_calls_at_most_once :
  calls is_validator (snd (open I argumentObject)) = 1 /\
  calls is_serializer (snd (open I argumentObject)) <= 1 /\
  calls is_connection (snd (open I argumentObject)) <= 1 /\
  calls is_getAddress (snd (open I argumentObject)) <= 1 /\
  calls is_construction (snd (open I argumentObject)) <= 1 /\
  calls is_handler (snd (open I argumentObject)) <= 1 /\
  length (snd (open I argumentObject)) <= 6.
Proof.
  open_cases; unfold calls; simpl; repeat split; lia.
Qed.

(** X3.  The device is asked for an address only over a connection that was
    established, only for the root path the serializer returned, and always
    with the second argument false and the third true. *)
Theorem open_getAddress_provenance path display prompt :
  GetAddress path display prompt ∈ snd (open I argumentObject) ->
  (exists ledger, ledgerConnection I = Ok ledger) /\
  root = Ok path /\ display = false /\ prompt = true.
Proof.
  unfold open_rootDerivationPath.
  open_cases; intros Hin; in_trace Hin; eauto.
Qed.

(** X4.  A wallet is constructed only from what the device answered for the
    root path: the public key and chain code of the response, the root
    path, the [addressCount] of the argument as it was given (undefined when
    it is missing) and the chain id [open] works with. *)
Theorem open_wallet_arguments_provenance args :
  NewLedgerWallet args ∈ snd (open I argumentObject) ->
  exists ledger response,
    ledgerConnection I = Ok ledger /\
    root = Ok (arg_rootDerivationPath args) /\
    getAddress ledger (arg_rootDerivationPath args) false true = Ok response /\
    arg_publicKey args = publicKey response /\
    arg_chainCode args = chainCode response /\
    arg_addressCount args = member firstArgument "addressCount" /\
    arg_chainId args = chainId.
Proof.
  unfold open_rootDerivationPath.
  open_cases; intros Hin; in_trace Hin; eexists _, _; eauto 10.
Qed.

(** Any chain id other than the mainnet number gives the testnet coin
    type. *)
Lemma open_coinType_other (v : JsVal) :
  v <> JNum (NETWORK_IDS_HOMESTEAD I) ->
  open_coinType I v = PATH_COIN_TESTNET I.
Proof.
  intros Hne. unfold open_coinType. destruct v; simpl; try reflexivity.
  destruct (Z.eqb_spec n (NETWORK_IDS_HOMESTEAD I)); congruence.
Qed.

(** X5.  [open] resolves with a wallet only when the serializer, the
    connection, the address request and the constructor all succeeded; the
    wallet is the one the constructor returned, and the error handler was
    not called. *)
Theorem open_wallet_is_constructed walletInstance :
  fst (open I argumentObject) = Resolved (Wallet walletInstance) ->
  exists path ledger response,
    root = Ok path /\
    ledgerConnection I = Ok ledger /\
    getAddress ledger path false true = Ok response /\
    LedgerWallet_new I (open_walletArguments I firstArgument path response)
      = Ok walletInstance /\
    snd (open I argumentObject) =
      [UserInputValidator firstArgument; DerivationPathSerializer coinType;
       LedgerConnection; GetAddress path false true;
       NewLedgerWallet (open_walletArguments I firstArgument path response)] /\
    calls is_handler (snd (open I argumentObject)) = 0.
Proof.
  unfold open_rootDerivationPath.
  open_cases; intros Hw; try discriminate Hw.
  injection Hw as <-. eexists _, _, _. repeat split; eauto.
Qed.

(** X6.  An error thrown by the wallet constructor is treated like a
    connection error: it goes to [handleLedgerConnectionError] with a
    message that contains the root path and the message of the error, after
    the device has been asked, and [open] does not resolve with a wallet. *)
Theorem open_constructor_error_reported u path ledger response (e : JsError) :
  Ledger.userInputValidator I firstArgument = Ok u ->
  firstArgument <> JNull ->
  root = Ok path ->
  ledgerConnection I = Ok ledger ->
  getAddress ledger path false true = Ok response ->
  LedgerWallet_new I (open_walletArguments I firstArgument path response) = Err e ->
  open I argumentObject =
    (settle (Ledger.handleLedgerConnectionError I e (open_specificMessage I path e)),
     [UserInputValidator firstArgument; DerivationPathSerializer coinType;
      LedgerConnection; GetAddress path false true;
      NewLedgerWallet (open_walletArguments I firstArgument path response);
      HandleLedgerConnectionError e (open_specificMessage I path e)]) /\
  occurs_in path (open_specificMessage I path e) /\
  occurs_in (message e) (open_specificMessage I path e) /\
  (forall walletInstance,
      fst (open I argumentObject) <> Resolved (Wallet walletInstance)).
Proof.
  intros Hv Hnull Hs Hc Hg Hn.
  assert (Ho : open I argumentObject =
    (settle (Ledger.handleLedgerConnectionError I e (open_specificMessage I path e)),
     [UserInputValidator firstArgument; DerivationPathSerializer coinType;
      LedgerConnection; GetAddress path false true;
      NewLedgerWallet (open_walletArguments I firstArgument path response);
      HandleLedgerConnectionError e (open_specificMessage I path e)])).
  { apply (open_thrown_in_try I argumentObject u path e
             [LedgerConnection; GetAddress path false true;
              NewLedgerWallet (open_walletArguments I firstArgument path response)]
             (open_specificMessage I path e) Hv Hnull Hs);
      [eapply thrown_by_constructor; eassumption|reflexivity]. }
  split; [exact Ho|]. split; [apply specificMessage_has_path|].
  split; [apply specificMessage_has_message|].
  intros w. rewrite Ho. simpl.
  destruct (Ledger.handleLedgerConnectionError I e _); discriminate.
Qed.

(** X7.  Whenever the error handler is called, it is called for something
    thrown inside the [try] block, with the message the catch block builds
    from the root path and what was caught (for an [Error], its message);
    the call is the last one of the run, and what the handler answers (a
    value or a throw) is how the promise settles. *)
Theorem open_handler_decides (caughtError : Thrown) specificMessage :
  HandleLedgerConnectionError caughtError specificMessage
    ∈ snd (open I argumentObject) ->
  exists path,
    root = Ok path /\
    open_catchMessage I path caughtError = Ok specificMessage /\
    last (snd (open I argumentObject))
      = Some (HandleLedgerConnectionError caughtError specificMessage) /\
    fst (open I argumentObject)
      = settle (Ledger.handleLedgerConnectionError I caughtError specificMessage) /\
    (exists u made,
        Ledger.userInputValidator I firstArgument = Ok u /\
        thrown_in_try I firstArgument path caughtError made).
Proof.
  unfold open_rootDerivationPath. intros Hin.
  destruct (Ledger.userInputValidator I firstArgument) as [u|e] eqn:Hv.
  2:{ rewrite (open_validation_throws I argumentObject e Hv) in Hin.
      simpl in Hin. in_trace Hin. }
  destruct (null_or_not firstArgument) as [Hnull|Hnull].
  { destruct (open_destructuring_throws I argumentObject u Hv Hnull)
      as [msg Ho].
    rewrite Ho in Hin. simpl in Hin. in_trace Hin. }
  destruct (Ledger.derivationPathSerializer I coinType) as [path|e] eqn:Hs.
  2:{ rewrite (open_serializer_throws I argumentObject u e Hv Hnull Hs) in Hin.
      simpl in Hin. in_trace Hin. }
  destruct (open_in_try I argumentObject path)
    as [(l & r & w & Hc & Hg & Hn)|(caught & made & Ht)].
  { rewrite (open_returns_wallet I argumentObject u path l r w
               Hv Hnull Hs Hc Hg Hn) in Hin. simpl in Hin. in_trace Hin. }
  destruct (open_catchMessage I path caught) as [msg|unreadable] eqn:Hm.
  - rewrite (open_thrown_in_try I argumentObject u path caught made msg
               Hv Hnull Hs Ht Hm) in *.
    assert (caughtError = caught /\ specificMessage = msg) as [-> ->].
    { destruct Ht; simpl in Hin; in_trace Hin; by split. }
    exists path. repeat split; try assumption.
    + destruct Ht; reflexivity.
    + by exists u, made.
  - rewrite (open_thrown_unreadable I argumentObject u path caught made
               unreadable Hv Hnull Hs Ht Hm) in Hin.
    destruct Ht; simpl in Hin; in_trace Hin.
Qed.

(** X8.  A [chainId] that is present but is not a number (a string, null,
    a boolean) is neither replaced by the default nor converted: [open]
    works with it as it is, takes the testnet coin type for it, and hands it
    to the wallet constructor unchanged. *)
Theorem open_chainId_not_a_number (v : JsVal) :
  member firstArgument "chainId" = v ->
  v <> JUndefined ->
  (forall n, v <> JNum n) ->
  chainId = v /\
  open_coinType I chainId = PATH_COIN_TESTNET I /\
  Forall (uses_root (Ledger.derivationPathSerializer I (PATH_COIN_TESTNET I)))
         (snd (open I argumentObject)) /\
  Forall (uses_chainId v) (snd (open I argumentObject)).
Proof.
  intros Hget Hdef Hnum.
  assert (Hid : chainId = v).
  { unfold open_chainId. rewrite Hget. by destruct v. }
  assert (Hcoin : open_coinType I chainId = PATH_COIN_TESTNET I).
  { apply open_coinType_other. rewrite Hid. apply Hnum. }
  destruct (open_trace_uses I argumentObject) as (_ & Hroot & Hchain).
  rewrite Hcoin in Hroot. rewrite Hid in Hchain. by repeat split.
Qed.

(** X18.  Where a rejection of [open] can come from.  The error is the one
    the validator threw; or the argument is null and destructuring it threw
    a [TypeError]; or the serializer threw it; or something was thrown
    inside the [try] block and then either it was null or undefined, so
    that reading its message threw, or the handler itself threw the error.
    An error of the device or of the wallet constructor never rejects the
    promise directly. *)
Theorem open_never_rejects_raw (t : Thrown) :
  fst (open I argumentObject) = Rejected t ->
  Ledger.userInputValidator I firstArgument = Err t \/
  (exists u msg,
      Ledger.userInputValidator I firstArgument = Ok u /\
      firstArgument = JNull /\ t = Exception (TypeError msg)) \/
  (exists u,
      Ledger.userInputValidator I firstArgument = Ok u /\
      firstArgument <> JNull /\ root = Err t) \/
  (exists u path caught made,
      Ledger.userInputValidator I firstArgument = Ok u /\
      firstArgument <> JNull /\ root = Ok path /\
      thrown_in_try I firstArgument path caught made /\
      (open_catchMessage I path caught = Err t \/
       exists specificMessage,
         open_catchMessage I path caught = Ok specificMessage /\
         Ledger.handleLedgerConnectionError I caught specificMessage = Err t)).
Proof.
  unfold open_rootDerivationPath. intros Hrej.
  destruct (Ledger.userInputValidator I firstArgument) as [u|e] eqn:Hv.
  2:{ left. rewrite (open_validation_throws I argumentObject e Hv) in Hrej.
      simpl in Hrej. congruence. }
  right.
  destruct (null_or_not firstArgument) as [Hnull|Hnull].
  { left. destruct (open_destructuring_throws I argumentObject u Hv Hnull)
      as [msg Ho].
    rewrite Ho in Hrej. simpl in Hrej. exists u, msg. repeat split; congruence. }
  right.
  destruct (Ledger.derivationPathSerializer I coinType) as [path|e] eqn:Hs.
  2:{ left. rewrite (open_serializer_throws I argumentObject u e Hv Hnull Hs)
        in Hrej. simpl in Hrej. exists u. repeat split; congruence. }
  right.
  destruct (open_in_try I argumentObject path)
    as [(l & r & w & Hc & Hg & Hn)|(caught & made & Ht)].
  { rewrite (open_returns_wallet I argumentObject u path l r w
               Hv Hnull Hs Hc Hg Hn) in Hrej. discriminate Hrej. }
  exists u, path, caught, made. repeat split; try assumption.
  destruct (open_catchMessage I path caught) as [msg|unreadable] eqn:Hm.
  - right. exists msg. split; [reflexivity|].
    rewrite (open_thrown_in_try I argumentObject u path caught made msg
               Hv Hnull Hs Ht Hm) in Hrej.
    simpl in Hrej.
    destruct (Ledger.handleLedgerConnectionError I caught msg); simpl in Hrej;
      congruence.
  - left.
    rewrite (open_thrown_unreadable I argumentObject u path caught made
               unreadable Hv Hnull Hs Ht Hm) in Hrej.
    simpl in Hrej. congruence.
Qed.

End OpenFurther.

(** X9.  All chains other than mainnet share one root derivation path:
    two calls of [open] whose chain ids both differ from the mainnet id ask
    the device for the same path, whatever the two ids are. *)
Theorem open_testnets_share_root (I : Ledger.Imports)
    (first second : JsVal) :
  open_chainId I (open_argumentObject first) <> JNum (NETWORK_IDS_HOMESTEAD I) ->
  open_chainId I (open_argumentObject second) <> JNum (NETWORK_IDS_HOMESTEAD I) ->
  open_rootDerivationPath I (open_argumentObject first)
    = open_rootDerivationPath I (open_argumentObject second) /\
  Forall (uses_root (open_rootDerivationPath I (open_argumentObject first)))
         (snd (open I second)).
Proof.
  intros H1 H2.
  assert (Heq : open_rootDerivationPath I (open_argumentObject first)
                = open_rootDerivationPath I (open_argumentObject second)).
  { unfold open_rootDerivationPath.
    by rewrite !open_coinType_other. }
  split; [exact Heq|]. rewrite Heq.
  destruct (open_trace_uses I second) as (_ & Hroot & _). exact Hroot.
Qed.

(** Witnesses for the further properties of [open]. *)

Lemma open_getAddress_provenance_witness :
  (GetAddress "m/44'/60'/0'" false true
     ∈ snd (open device_rejecting (JObj {[ "addressCount" := JNum 2 ]}))) /\
  (exists ledger, ledgerConnection device_rejecting = Ok ledger) /\
  open_rootDerivationPath device_rejecting
    (open_argumentObject (JObj {[ "addressCount" := JNum 2 ]}))
    = Ok "m/44'/60'/0'".
Proof.
  assert (Hin : GetAddress "m/44'/60'/0'" false true
                  ∈ snd (open device_rejecting (JObj {[ "addressCount" := JNum 2 ]}))).
  { vm_compute. repeat constructor. }
  split; [exact Hin|].
  destruct (open_getAddress_provenance device_rejecting
              (JObj {[ "addressCount" := JNum 2 ]}) _ _ _ Hin)
    as (Hledger & Hpath & _).
  split; [exact Hledger|exact Hpath].
Defined.

Lemma open_wallet_arguments_provenance_witness :
  (NewLedgerWallet
     {| arg_publicKey := "04ab"; arg_chainCode := "cc01";
        arg_rootDerivationPath := "m/44'/60'/0'";
        arg_addressCount := JUndefined; arg_chainId := JNum 1 |}
     ∈ snd (open device_ready JUndefined)) /\
  (exists ledger response,
      ledgerConnection device_ready = Ok ledger /\
      getAddress ledger "m/44'/60'/0'" false true = Ok response /\
      "04ab" = publicKey response /\ "cc01" = chainCode response).
Proof.
  assert (Hin : NewLedgerWallet
                  {| arg_publicKey := "04ab"; arg_chainCode := "cc01";
                     arg_rootDerivationPath := "m/44'/60'/0'";
                     arg_addressCount := JUndefined; arg_chainId := JNum 1 |}
                  ∈ snd (open device_ready JUndefined)).
  { vm_compute. repeat constructor. }
  split; [exact Hin|].
  destruct (open_wallet_arguments_provenance device_ready JUndefined _ Hin)
    as (ledger & response & Hc & _ & Hg & Hpk & Hcc & _).
  exists ledger, response. repeat split; assumption.
Defined.

Lemma open_wallet_is_constructed_witness :
  fst (open device_ready (JObj {[ "addressCount" := JNum 3 ]}))
    = Resolved (Wallet (LedgerWallet_constructor sample_derive sample_arguments)) /\
  calls is_handler (snd (open device_ready (JObj {[ "addressCount" := JNum 3 ]}))) = 0.
Proof.
  assert (Hw : fst (open device_ready (JObj {[ "addressCount" := JNum 3 ]}))
               = Resolved (Wallet (LedgerWallet_constructor sample_derive
                                     sample_arguments))).
  { vm_compute. reflexivity. }
  split; [exact Hw|].
  destruct (open_wallet_is_constructed device_ready
              (JObj {[ "addressCount" := JNum 3 ]}) _ Hw)
    as (path & ledger & response & _ & _ & _ & _ & _ & Hcalls).
  exact Hcalls.
Defined.

Lemma open_constructor_error_reported_witness :
  open refusing_class JUndefined =
    (Resolved (Handled JUndefined),
     [UserInputValidator (open_argumentObject JUndefined);
      DerivationPathSerializer
        (open_coinType refusing_class
           (open_chainId refusing_class (open_argumentObject JUndefined)));
      LedgerConnection;
      GetAddress "m/44'/60'/0'" false true;
      NewLedgerWallet
        (open_walletArguments refusing_class (open_argumentObject JUndefined)
           "m/44'/60'/0'" {| publicKey := "04ab"; chainCode := "cc01" |});
      HandleLedgerConnectionError
        {| name := "Error"; message := "Invalid public key" |}
        (open_specificMessage refusing_class "m/44'/60'/0'"
           {| name := "Error"; message := "Invalid public key" |})]).
Proof.
  destruct (open_constructor_error_reported refusing_class JUndefined tt
              "m/44'/60'/0'" sample_ledger
              {| publicKey := "04ab"; chainCode := "cc01" |}
              {| name := "Error"; message := "Invalid public key" |})
    as (Ho & _).
  - reflexivity.
  - discriminate.
  - reflexivity.
  - reflexivity.
  - reflexivity.
  - reflexivity.
  - exact Ho.
Defined.

Lemma open_handler_decides_witness :
  (HandleLedgerConnectionError
     {| name := "TransportError"; message := "No device found" |}
     "Could not export the public key: m/44'/60'/0' No device found"
     ∈ snd (open device_absent JUndefined)) /\
  fst (open device_absent JUndefined) = Resolved (Handled JUndefined).
Proof.
  assert (Hin : HandleLedgerConnectionError
                  {| name := "TransportError"; message := "No device found" |}
                  "Could not export the public key: m/44'/60'/0' No device found"
                  ∈ snd (open device_absent JUndefined)).
  { vm_compute. repeat constructor. }
  split; [exact Hin|].
  destruct (open_handler_decides device_absent JUndefined _ _ Hin)
    as (path & _ & _ & _ & Hsettled & _).
  exact Hsettled.
Defined.

Lemma open_chainId_not_a_number_witness :
  member (open_argumentObject (JObj {[ "chainId" := JStr "1" ]})) "chainId"
    = JStr "1" /\
  open_chainId unchecked (open_argumentObject (JObj {[ "chainId" := JStr "1" ]}))
    = JStr "1" /\
  open_coinType unchecked
    (open_chainId unchecked (open_argumentObject (JObj {[ "chainId" := JStr "1" ]})))
    = 1%Z.
Proof.
  destruct (open_chainId_not_a_number unchecked
              (JObj {[ "chainId" := JStr "1" ]}) (JStr "1"))
    as (Hid & Hcoin & _).
  - reflexivity.
  - discriminate.
  - intros n. discriminate.
  - split; [reflexivity|]. split; [exact Hid|exact Hcoin].
Defined.

Lemma open_testnets_share_root_witness :
  open_rootDerivationPath device_ready
    (open_argumentObject (JObj {[ "chainId" := JNum 3 ]}))
  = open_rootDerivationPath device_ready
      (open_argumentObject (JObj {[ "chainId" := JNum 42 ]})).
Proof.
  destruct (open_testnets_share_root device_ready
              (JObj {[ "chainId" := JNum 3 ]})
              (JObj {[ "chainId" := JNum 42 ]})) as [Heq _].
  - discriminate.
  - discriminate.
  - exact Heq.
Defined.

Lemma open_never_rejects_raw_witness :
  (exists msg, fst (open unchecked JNull) = Rejected (TypeError msg)) /\
  Ledger.userInputValidator unchecked (open_argumentObject JNull) = Ok tt /\
  open_argumentObject JNull = JNull.
Proof.
  assert (Hrej : fst (open unchecked JNull)
                 = Rejected (TypeError
                     "Cannot destructure a value that is null or undefined")).
  { vm_compute. reflexivity. }
  split; [by eexists|].
  destruct (open_never_rejects_raw unchecked JNull _ Hrej)
    as [Hv|[(u & msg & Hv & Hnull & _)|[(u & _ & Hnull & _)
                                        |(u & p & c & m & _ & Hnull & _)]]].
  - vm_compute in Hv. discriminate Hv.
  - split; [reflexivity|exact Hnull].
  - exfalso. apply Hnull. reflexivity.
  - exfalso. apply Hnull. reflexivity.
Defined.

(* ===================================================================== *)
(** ** Further properties of the provider generators *)
(* ===================================================================== *)

Section GeneratorsFurther.
Context (I : Providers.Imports).

Local Abbreviation net network := (or_default network (JStr (DEFAULT_NETWORK I))).

(** A defaulted parameter is never undefined. *)
Lemma or_default_defined (v : JsVal) (d : string) :
  or_default v (JStr d) <> JUndefined.
Proof. by destruct v. Qed.

(** X10.  Every generator returns, whatever the constructors do, and what
    it returns is either the empty object or the very value one of the
    constructions it attempted returned. *)
Theorem generators_return_constructed_or_empty (m : Method) (args : list JsVal) :
  exists p,
    fst (colonyWallet I m args) = Ok p /\
    (p = empty_object \/
     exists class cargs,
       (class, cargs) ∈ constructions (snd (colonyWallet I m args)) /\
       providers I class cargs = Ok p).
Proof.
  destruct m; simpl; generator_cases; eexists; (split; [reflexivity|]);
    try (by left);
    right; eexists _, _; (split; [|eassumption]); repeat constructor.
Qed.

(** X11.  When a key is given, the keyed construction succeeds and only the
    construction without key throws, [etherscan] and [infura] hand back the
    keyed provider, not the empty object: the assignment made before the
    throw stays, and the error is logged after the warning. *)
Theorem keyed_provider_kept_on_late_throw (network apiKey : JsVal) :
  truthy apiKey = true ->
  (forall keyed e,
      providers I EtherscanProvider [net network; apiKey] = Ok keyed ->
      providers I EtherscanProvider [net network] = Err e ->
      etherscan I network apiKey =
        (Ok keyed,
         [New EtherscanProvider [net network; apiKey];
          Warn (warnings_providers_etherscan_apiKey I);
          New EtherscanProvider [net network];
          Error (errors_providers_etherscan_connect I) [net network; apiKey] e])) /\
  (forall keyed e,
      providers I InfuraProvider [net network; apiKey] = Ok keyed ->
      providers I InfuraProvider [net network] = Err e ->
      infura I network apiKey =
        (Ok keyed,
         [New InfuraProvider [net network; apiKey];
          Warn (warnings_providers_infura_apiKey I);
          New InfuraProvider [net network];
          Error (errors_providers_infura_connect I) [net network; apiKey] e])).
Proof.
  intros Hk. split; intros keyed e H1 H2.
  - by apply etherscan_keyed_kept.
  - by apply infura_keyed_kept.
Qed.

(** X12.  [etherscan] and [infura] emit the missing-api-key warning, once,
    in every call but one kind: it is absent exactly when a key was given
    and the keyed construction threw. *)
Theorem apiKey_warning_unless_keyed_throws (network apiKey : JsVal) :
  (warnings (snd (etherscan I network apiKey)) = [] <->
     truthy apiKey = true /\
     exists e, providers I EtherscanProvider [net network; apiKey] = Err e) /\
  (warnings (snd (etherscan I network apiKey)) = [] \/
   warnings (snd (etherscan I network apiKey))
     = [warnings_providers_etherscan_apiKey I]) /\
  (warnings (snd (infura I network apiKey)) = [] <->
     truthy apiKey = true /\
     exists e, providers I InfuraProvider [net network; apiKey] = Err e) /\
  (warnings (snd (infura I network apiKey)) = [] \/
   warnings (snd (infura I network apiKey))
     = [warnings_providers_infura_apiKey I]).
Proof.
  generator_cases; repeat split; intros;
    repeat match goal with
      | H : _ /\ _ |- _ => destruct H
      | H : exists _, _ |- _ => destruct H
      end;
    simplify_eq; try (by left); try (by right); try (by eexists).
Qed.

(** X13.  A falsy [apiKey] (undefined, null, the empty string, zero) counts
    as no key: the only construction is the one from the network alone, and
    the caller gets what a call without key gets. *)
Theorem falsy_apiKey_is_no_key (network apiKey : JsVal) :
  truthy apiKey = false ->
  constructions (snd (etherscan I network apiKey))
    = [(EtherscanProvider, [net network])] /\
  fst (etherscan I network apiKey) = fst (etherscan I network JUndefined) /\
  constructions (snd (infura I network apiKey))
    = [(InfuraProvider, [net network])] /\
  fst (infura I network apiKey) = fst (infura I network JUndefined).
Proof.
  intros Hk. repeat split; run_generator; rewrite Hk; simpl;
    match goal with
    | |- context [providers I ?c ?a] => by destruct (providers I c a)
    end.
Qed.

(** X14.  Nothing a constructor throws is lost and nothing is logged
    without a throw: either no error is logged and every construction
    attempted succeeded, or exactly one error is logged, as the last event,
    and it is the one thrown by the last construction attempted. *)
Theorem generators_log_every_throw (m : Method) (args : list JsVal) :
  (errors (snd (colonyWallet I m args)) = [] /\
   Forall (fun c => exists p, providers I (fst c) (snd c) = Ok p)
          (constructions (snd (colonyWallet I m args)))) \/
  (exists e msg params class cargs,
      errors (snd (colonyWallet I m args)) = [e] /\
      last (snd (colonyWallet I m args)) = Some (Error msg params e) /\
      last (constructions (snd (colonyWallet I m args))) = Some (class, cargs) /\
      providers I class cargs = Err e).
Proof.
  destruct m; simpl; generator_cases;
    first [ left; split; [reflexivity|]; repeat constructor; by eexists
          | right; eexists _, _, _, _, _; repeat split; eassumption ].
Qed.

(** X15.  With an injected wallet present, [metamask] emits no warning and
    attempts exactly one construction, of a [Web3Provider] on
    [global.web3.currentProvider] and the network; it returns the provider
    if that succeeds and the empty object if it throws. *)
Theorem metamask_available (network : JsVal) :
  truthy (global_web3 I) = true ->
  truthy (global_web3_currentProvider I) = true ->
  warnings (snd (metamask I network)) = [] /\
  constructions (snd (metamask I network))
    = [(Web3Provider, [global_web3_currentProvider I; net network])] /\
  fst (metamask I network) =
    match providers I Web3Provider [global_web3_currentProvider I; net network] with
    | Ok p => Ok p
    | Err _ => Ok empty_object
    end.
Proof.
  intros Hw Hc. run_generator. rewrite Hw, Hc. simpl.
  by destruct (providers I Web3Provider _).
Qed.

(** X16.  A generator only ever instantiates its own class, and it does so
    at most twice for [etherscan] and [infura] and at most once for
    [localhost] and [metamask]. *)
Theorem generators_construct_own_class (m : Method) (args : list JsVal) :
  Forall (fun c => fst c = class_of m)
         (constructions (snd (colonyWallet I m args))) /\
  length (constructions (snd (colonyWallet I m args)))
    <= match m with Etherscan | Infura => 2 | Localhost | Metamask => 1 end.
Proof.
  destruct m; simpl; generator_cases; split; simpl;
    try lia; repeat constructor.
Qed.

(** X17.  No constructor is ever handed [undefined] where a default exists:
    the network of every construction is defined, and so is the url of a
    [JsonRpcProvider]. *)
Theorem generators_never_pass_undefined (m : Method) (args : list JsVal) :
  Forall (fun c => network_of c <> JUndefined /\
                   (fst c = JsonRpcProvider /\ arg 0 (snd c) <> JUndefined \/
                    fst c <> JsonRpcProvider))
         (constructions (snd (colonyWallet I m args))).
Proof.
  destruct m; simpl; generator_cases;
    repeat (apply List.Forall_cons;
            [split;
             [apply or_default_defined
             |first [ by right
                    | left; split; [reflexivity|apply or_default_defined] ]]|]);
    apply List.Forall_nil.
Qed.

End GeneratorsFurther.

(** Witnesses for the further properties of the generators. *)

Lemma keyed_provider_kept_on_late_throw_witness :
  truthy (JStr "key") = true /\
  etherscan keyed_only_host JUndefined (JStr "key") =
    (Ok (JObj {[ "network" := JStr "homestead"; "apiKey" := JStr "key" ]}),
     [New EtherscanProvider [JStr "homestead"; JStr "key"];
      Warn "etherscan: no api key";
      New EtherscanProvider [JStr "homestead"];
      Error "etherscan: connection failed" [JStr "homestead"; JStr "key"]
            {| name := "Error"; message := "missing api key" |}]) /\
  fst (infura keyed_only_host JUndefined (JStr "key")) =
    Ok (JObj {[ "network" := JStr "homestead"; "apiKey" := JStr "key" ]}).
Proof.
  destruct (keyed_provider_kept_on_late_throw keyed_only_host JUndefined
              (JStr "key") eq_refl) as [Hetherscan Hinfura].
  split; [reflexivity|]. split.
  - apply Hetherscan; reflexivity.
  - rewrite (Hinfura
               (JObj {[ "network" := JStr "homestead"; "apiKey" := JStr "key" ]})
               {| name := "Error"; message := "missing api key" |});
      reflexivity.
Defined.

Lemma falsy_apiKey_is_no_key_witness :
  truthy (JStr "") = false /\
  constructions (snd (etherscan node_host (JStr "ropsten") (JStr "")))
    = [(EtherscanProvider, [JStr "ropsten"])] /\
  fst (etherscan node_host (JStr "ropsten") (JStr ""))
    = fst (etherscan node_host (JStr "ropsten") JUndefined).
Proof.
  destruct (falsy_apiKey_is_no_key node_host (JStr "ropsten") (JStr "") eq_refl)
    as (Hone & Hsame & _).
  split; [reflexivity|]. split; [exact Hone|exact Hsame].
Defined.

Lemma metamask_available_witness :
  truthy (global_web3 browser_host) = true /\
  truthy (global_web3_currentProvider browser_host) = true /\
  warnings (snd (metamask browser_host JUndefined)) = [] /\
  fst (metamask browser_host JUndefined)
    = Ok (JObj {[ "web3" := JObj ∅; "network" := JStr "homestead" ]}).
Proof.
  destruct (metamask_available browser_host JUndefined eq_refl eq_refl)
    as (Hquiet & _ & Hresult).
  split; [reflexivity|]. split; [reflexivity|]. split; [exact Hquiet|].
  rewrite Hresult. reflexivity.
Defined.

(* ===================================================================== *)
(** ** What reaches the log *)
(* ===================================================================== *)


